(** * Shopify detector: the detection engine of [main.py]

    A shallow embedding of [normalize_candidates], [check_body_markers],
    [try_cart_json] and [is_shopify_site], followed by the properties of
    the candidate normalizer and of the decision engine.

    Conventions of the model.
    - A Python [str] is a [string] holding its UTF-8 encoding.
      [str.strip()] removes every character that [str.isspace()] accepts,
      ASCII or not ([Str.WHITESPACE]).  The prefixes, schemes and marker
      patterns the code looks for are ASCII; case folding ([Str.lower])
      and the regular expressions of the body markers ([Re]) are
      modelled on ASCII characters, on which they agree with Python, and
      take every byte above 127 as a character that is neither a letter
      nor a word character.
    - A raised exception is [Raise e], [e] being the text of [str(e)].
    - The library functions [urlparse] and [urljoin] and the iteration
      order of a [set] belong to the Python runtime, not to [main.py]:
      they are fields of [PyRuntime].  The network is an oracle that
      answers a GET from the calls made so far.
    - Calls to the logger are left out: they change neither the result
      nor the control flow. *)

From Stdlib Require Import String Ascii List Bool ZArith Lia Permutation DecimalString.
Import ListNotations.
Open Scope list_scope.
Open Scope string_scope.

(** ** Exceptions *)

Inductive result (A : Type) : Type :=
| Return (a : A)
| Raise (e : string).

Arguments Return {A} a.
Arguments Raise {A} e.

Definition rbind {A B} (r : result A) (k : A -> result B) : result B :=
  match r with
  | Return a => k a
  | Raise e => Raise e
  end.

(** ** Python string operations *)

Module Str.

Definition lower_ascii (c : ascii) : ascii :=
  let n := nat_of_ascii c in
  if (65 <=? n)%nat && (n <=? 90)%nat then ascii_of_nat (n + 32) else c.

(** [s.lower()] *)
Fixpoint lower (s : string) : string :=
  match s with
  | EmptyString => EmptyString
  | String c s' => String (lower_ascii c) (lower s')
  end.

(** [s.startswith(p)] *)
Definition startswith (s p : string) : bool := String.prefix p s.

(** [c.isspace()] for an ASCII character: TAB, LF, VT, FF, CR, FS, GS,
    RS, US, SPACE. *)
Definition isspace (c : ascii) : bool :=
  let n := nat_of_ascii c in
  ((9 <=? n)%nat && (n <=? 13)%nat) || ((28 <=? n)%nat && (n <=? 32)%nat).

Definition is_empty (s : string) : bool :=
  match s with
  | EmptyString => true
  | String _ _ => false
  end.

Fixpoint lstrip_by (p : ascii -> bool) (s : string) : string :=
  match s with
  | EmptyString => EmptyString
  | String c s' => if p c then lstrip_by p s' else s
  end.

Fixpoint rstrip_by (p : ascii -> bool) (s : string) : string :=
  match s with
  | EmptyString => EmptyString
  | String c s' =>
      let t := rstrip_by p s' in
      if p c && is_empty t then EmptyString else String c t
  end.

Definition strip_by (p : ascii -> bool) (s : string) : string :=
  rstrip_by p (lstrip_by p s).

Fixpoint of_bytes (l : list nat) : string :=
  match l with
  | [] => EmptyString
  | n :: l' => String (ascii_of_nat n) (of_bytes l')
  end.

(** The characters for which [str.isspace()] holds, each as its UTF-8
    encoding: U+0009 to U+000D, U+001C to U+0020, U+0085, U+00A0,
    U+1680, U+2000 to U+200A, U+2028, U+2029, U+202F, U+205F, U+3000.
    These are the characters [s.strip()] removes. *)
Definition WHITESPACE : list string :=
  map of_bytes
    [ [9]; [10]; [11]; [12]; [13]; [28]; [29]; [30]; [31]; [32];
      [194; 133]; [194; 160]; [225; 154; 128];
      [226; 128; 128]; [226; 128; 129]; [226; 128; 130]; [226; 128; 131];
      [226; 128; 132]; [226; 128; 133]; [226; 128; 134]; [226; 128; 135];
      [226; 128; 136]; [226; 128; 137]; [226; 128; 138];
      [226; 128; 168]; [226; 128; 169]; [226; 128; 175]; [226; 129; 159];
      [227; 128; 128] ].

(** The length of the first of [ws] that [s] starts with, [0] if none. *)
Fixpoint first_prefix (ws : list string) (s : string) : nat :=
  match ws with
  | [] => O
  | w :: ws' => if String.prefix w s then String.length w else first_prefix ws' s
  end.

(** The number of bytes of the white-space character [s] starts with,
    [0] when it starts with none. *)
Definition ws_len (s : string) : nat := first_prefix WHITESPACE s.

(** [s.lstrip()]; [skip] bytes of a white-space character are still to
    be dropped. *)
Fixpoint lstrip_from (skip : nat) (s : string) : string :=
  match skip, s with
  | S k, String _ s' => lstrip_from k s'
  | S _, EmptyString => EmptyString
  | O, EmptyString => EmptyString
  | O, String _ s' =>
      match ws_len s with
      | O => s
      | S k => lstrip_from k s'
      end
  end.

Definition lstrip (s : string) : string := lstrip_from 0 s.

(** Is [s] made of white space only? *)
Definition blank (s : string) : bool := is_empty (lstrip s).

(** [s.rstrip()]: what comes before the longest white-space end of [s]. *)
Fixpoint rstrip (s : string) : string :=
  match s with
  | EmptyString => EmptyString
  | String c s' => if blank s then EmptyString else String c (rstrip s')
  end.

(** [s.strip()] *)
Definition strip (s : string) : string := rstrip (lstrip s).

(** [s.isascii()] *)
Fixpoint is_ascii (s : string) : bool :=
  match s with
  | EmptyString => true
  | String c s' => (nat_of_ascii c <? 128)%nat && is_ascii s'
  end.

Fixpoint mem_ascii (c : ascii) (chars : string) : bool :=
  match chars with
  | EmptyString => false
  | String d chars' => Ascii.eqb c d || mem_ascii c chars'
  end.

(** [s.strip(chars)] *)
Definition strip_chars (chars s : string) : string :=
  strip_by (fun c => mem_ascii c chars) s.

Fixpoint drop (n : nat) (s : string) : string :=
  match n, s with
  | O, _ => s
  | S _, EmptyString => EmptyString
  | S n', String _ s' => drop n' s'
  end.

(** [s.replace(old, new, 1)] for a non-empty [old]: the first occurrence
    of [old], scanning from the left, is replaced. *)
Fixpoint replace_first (old new s : string) : string :=
  if String.prefix old s then new ++ drop (String.length old) s
  else match s with
       | EmptyString => EmptyString
       | String c s' => String c (replace_first old new s')
       end.

(** [x or y] on strings *)
Definition or_else (x y : string) : string :=
  if is_empty x then y else x.

(** [sep.join(l)] *)
Definition join (sep : string) (l : list string) : string := String.concat sep l.

(** [str(n)] for an [int] *)
Definition of_int (n : Z) : string := NilZero.string_of_int (Z.to_int n).

End Str.

(** ** The regular expressions of [main.py]

    The patterns used are literals with the escapes [\.] and [\b] (and
    [^], [?] in the scheme test, which is modelled directly).  A pattern
    string is compiled to atoms; matching ignores case, as under [re.I]. *)

Module Re.

Inductive atom : Type :=
| Chr (c : ascii)
| WordB.

Definition backslash : ascii := ascii_of_nat 92.

(** [escaped] tells that the previous character was a backslash. *)
Fixpoint compile_from (escaped : bool) (pat : string) : list atom :=
  match pat with
  | EmptyString => if escaped then [Chr backslash] else []
  | String c rest =>
      if escaped then
        (if Ascii.eqb c "b" then WordB else Chr c) :: compile_from false rest
      else if Ascii.eqb c backslash then compile_from true rest
      else Chr c :: compile_from false rest
  end.

Definition compile (pat : string) : list atom := compile_from false pat.

(** [\w] on ASCII: letters, digits and the underscore. *)
Definition is_word (c : ascii) : bool :=
  let n := nat_of_ascii c in
  ((48 <=? n)%nat && (n <=? 57)%nat)
  || ((65 <=? n)%nat && (n <=? 90)%nat)
  || ((97 <=? n)%nat && (n <=? 122)%nat)
  || (n =? 95)%nat.

Definition word_before (prev : option ascii) : bool :=
  match prev with
  | Some c => is_word c
  | None => false
  end.

Definition word_after (s : string) : bool :=
  match s with
  | EmptyString => false
  | String c _ => is_word c
  end.

(** Does the pattern match at the current position?  [prev] is the
    character before the position, if any. *)
Fixpoint match_here (pat : list atom) (prev : option ascii) (s : string) : bool :=
  match pat with
  | [] => true
  | WordB :: pat' => xorb (word_before prev) (word_after s) && match_here pat' prev s
  | Chr c :: pat' =>
      match s with
      | EmptyString => false
      | String t s' =>
          Ascii.eqb (Str.lower_ascii c) (Str.lower_ascii t) && match_here pat' (Some t) s'
      end
  end.

Fixpoint search_from (pat : list atom) (prev : option ascii) (s : string) : bool :=
  match_here pat prev s
  || match s with
     | EmptyString => false
     | String t s' => search_from pat (Some t) s'
     end.

(** [re.search(pat, text, re.I)] is not [None] *)
Definition search (pat text : string) : bool := search_from (compile pat) None text.

(** [re.match(r"^https?://", raw, re.I)] is not [None].  Under [re.I]
    the [s] of the pattern also matches U+017F, the long s (the other
    characters of the pattern match their two ASCII cases only). *)
Definition match_scheme (raw : string) : bool :=
  let l := Str.lower raw in
  Str.startswith l "http://" || Str.startswith l "https://"
  || Str.startswith l ("http" ++ Str.of_bytes [197; 191] ++ "://").

End Re.

(** ** The Python runtime *)

(** The six components of [urlparse]'s result. *)
Record ParseResult : Type := mkParse {
  scheme : string;
  netloc : string;
  path : string;
  params : string;
  query : string;
  fragment : string
}.

(** A Python [set] of strings is the list of its elements, without
    repetition, in the order they were added; [set_iter] gives the order
    in which a [for] loop visits them, which the language leaves open and
    which CPython derives from the (per-process randomised) hashes. *)
Definition pyset : Type := list string.

Definition set_mem (x : string) (s : pyset) : bool :=
  existsb (String.eqb x) s.

Definition set_add (x : string) (s : pyset) : pyset :=
  if set_mem x s then s else (s ++ [x])%list.

(** What [main.py] takes from the runtime.  [urlparse] raises
    [ValueError] on some malformed addresses; [urljoin] is only applied to
    the address of a response already received, on which it returns. *)
Record PyRuntime : Type := mkRuntime {
  urlparse : string -> result ParseResult;
  urljoin : string -> string -> string;
  set_iter : pyset -> list string;
  set_iter_perm : forall s, NoDup s -> Permutation (set_iter s) s
}.

(** ** [normalize_candidates] *)

Section Normalizer.

Variable py : PyRuntime.

(** The loop [for u in candidates: if u not in seen: ...]. *)
Fixpoint dedup (candidates : list string) (seen : pyset) (uniq : list string)
  : list string :=
  match candidates with
  | [] => uniq
  | u :: rest =>
      if negb (set_mem u seen)
      then dedup rest (set_add u seen) (uniq ++ [u])%list
      else dedup rest seen uniq
  end.

Definition host_urls (h : string) : list string :=
  ["https://" ++ h ++ "/"; "http://" ++ h ++ "/"].

Definition base_hosts_of (host : string) : pyset :=
  let base_hosts := set_add host [] in
  if negb (Str.startswith host "www.")
  then set_add ("www." ++ host) base_hosts
  else set_add (Str.replace_first "www." "" host) base_hosts.

Definition normalize_candidates (raw : string) : result (list string) :=
  let raw := Str.strip raw in
  if Str.is_empty raw then Return []
  else
    let raw_https :=
      if negb (Re.match_scheme raw) then "https://" ++ raw else raw in
    rbind (urlparse py raw_https) (fun p =>
    let host := Str.or_else (netloc p) (path p) in
    let host := Str.strip_chars "/" host in
    if Str.is_empty host then Return []
    else
      let base_hosts := base_hosts_of host in
      let candidates := flat_map host_urls (set_iter py base_hosts) in
      Return (dedup candidates [] [])).

End Normalizer.

(** ** HTTP responses and the network *)

(** The value [r.json()] decodes to. *)
#[warnings="-register-all"]
Inductive Json : Type :=
| JNull
| JBool (b : bool)
| JNum (n : Z)
| JStr (s : string)
| JList (l : list Json)
| JDict (items : list (string * Json)).

(** What the code reads of a [requests.Response]: [r.url] (the address
    after redirects), [r.status_code], [r.headers], the cookies of
    [r.cookies] as (name, value) pairs, [r.text], and the outcome of
    [r.json()], which raises when the body is not JSON. *)
Record Response : Type := mkResponse {
  url : string;
  status_code : Z;
  headers : list (string * string);
  cookies : list (string * string);
  text : string;
  json : result Json
}.

(** [r.headers.get(name, default)]: header names compare without case. *)
Fixpoint headers_get (hs : list (string * string)) (name default : string) : string :=
  match hs with
  | [] => default
  | (k, v) :: hs' =>
      if String.eqb (Str.lower k) (Str.lower name) then v
      else headers_get hs' name default
  end.

(** [isinstance(data, dict)] *)
Definition is_dict (data : Json) : bool :=
  match data with
  | JDict _ => true
  | _ => false
  end.

(** [key in data] for a dict [data] *)
Definition dict_has (key : string) (data : Json) : bool :=
  match data with
  | JDict items => existsb (fun kv => String.eqb key (fst kv)) items
  | _ => false
  end.

(** The two places of [main.py] that call [requests.get]. *)
Inductive Purpose : Type :=
| Probe       (* [fetch], on a candidate *)
| CartCheck.  (* [try_cart_json], on [/cart.js] *)

Record Call : Type := mkCall {
  purpose : Purpose;
  target : string;
  outcome : result Response
}.

(** The network answers a GET knowing the calls made before it. *)
Definition Network : Type := list Call -> string -> result Response.

(** ** The result of a run *)

Inductive Confidence : Type :=
| High
| Medium
| Low.

(** The strings the code returns for the three tiers. *)
Definition confidence_label (c : Confidence) : string :=
  match c with
  | High => "висока"
  | Medium => "середня"
  | Low => "низька"
  end.

(** The tuple [is_shopify_site] returns. *)
Record Verdict : Type := mkVerdict {
  isShopify : bool;
  confidence : Confidence;
  resolvedUrl : option string;
  evidence : list string
}.

(** ** State and exceptions

    The state of a run is the list [reasons], which the code mutates in
    place, and the calls made to the network.  An exception leaves the
    state as it was when it was raised. *)

Record State : Type := mkState {
  history : list Call;
  reasons : list string
}.

Definition init : State := mkState [] [].

Definition M (A : Type) : Type := State -> result A * State.

Definition ret {A} (a : A) : M A := fun s => (Return a, s).

Definition bind {A B} (m : M A) (k : A -> M B) : M B :=
  fun s =>
    match m s with
    | (Return a, s') => k a s'
    | (Raise e, s') => (Raise e, s')
    end.

Definition lift {A} (r : result A) : M A := fun s => (r, s).

(** [try: body except Exception as e: handler] *)
Definition try_except {A} (body : M A) (handler : string -> M A) : M A :=
  fun s =>
    match body s with
    | (Return a, s') => (Return a, s')
    | (Raise e, s') => handler e s'
    end.

(** [reasons.append(x)] *)
Definition reasons_append (x : string) : M unit :=
  fun s => (Return tt, mkState (history s) (reasons s ++ [x])%list).

Definition get_reasons : M (list string) :=
  fun s => (Return (reasons s), s).

(** [if cond: body] *)
Definition when (cond : bool) (body : M unit) : M unit :=
  if cond then body else ret tt.

Declare Scope monad_scope.
Delimit Scope monad_scope with monad.
Notation "x <- c ;; k" := (bind c (fun x => k))
  (at level 61, c at next level, right associativity) : monad_scope.
Notation "' pat <- c ;; k" := (bind c (fun x => match x with pat => k end))
  (at level 61, pat pattern, c at next level, right associativity) : monad_scope.
Notation "c ;; k" := (bind c (fun _ => k))
  (at level 61, right associativity) : monad_scope.
Open Scope monad_scope.

(** [bool(l)] for a list *)
Definition nonempty {A} (l : list A) : bool :=
  match l with
  | [] => false
  | _ :: _ => true
  end.

(** ** The detection engine *)

Definition BODY_MARKERS : list string :=
  [ "cdn\.shopify\.com";
    "\bmyshopify\.com\b";
    "window\.Shopify\b";
    "Shopify\.theme\b";
    "shopify-digital-wallet" ].

Definition check_body_markers (text : string) : list string :=
  filter (fun pat => Re.search pat text) BODY_MARKERS.

Section Engine.

Variable py : PyRuntime.
Variable net : Network.

(** [requests.get(url, headers=UA, timeout=8)]; redirects are followed
    in both callers. *)
Definition requests_get (why : Purpose) (u : string) : M Response :=
  fun s =>
    let out := net (history s) u in
    (out, mkState (history s ++ [mkCall why u out])%list (reasons s)).

Definition fetch (u : string) : M Response := requests_get Probe u.

Definition cart_ok_message (cart_url : string) : string :=
  "Доступний " ++ cart_url ++ " (валідний JSON із ключами Shopify)".

Definition cart_negative_message (r : Response) (ctype : string) : string :=
  "/cart.js не підтвердив Shopify (status=" ++ Str.of_int (status_code r)
    ++ ", type=" ++ ctype ++ ")".

Definition cart_error_message (e : string) : string :=
  "/cart.js помилка: " ++ e.

Definition try_cart_json (final_url : string) : M (bool * string) :=
  let cart_url := urljoin py final_url "/cart.js" in
  try_except
    (r <- requests_get CartCheck cart_url ;;
     let ctype := Str.lower (headers_get (headers r) "Content-Type" "") in
     if (status_code r =? 200)%Z && Str.startswith ctype "application/json" then
       data <- lift (json r) ;;
       if is_dict data
          && (dict_has "items" data || dict_has "token" data || dict_has "attributes" data)
       then ret (true, cart_ok_message cart_url)
       else ret (false, cart_negative_message r ctype)
     else ret (false, cart_negative_message r ctype))
    (fun e => ret (false, cart_error_message e)).

Definition shopify_headers_of (r : Response) : list string :=
  filter (fun k => Str.startswith (Str.lower k) "x-shopify-") (map fst (headers r)).

Definition shopify_cookies_of (r : Response) : list string :=
  filter (fun name => Str.startswith (Str.lower name) "_shopify") (map fst (cookies r)).

Definition headers_note (shopify_headers : list string) : string :=
  "Заголовки містять X-Shopify-* (" ++ Str.join ", " (firstn 5 shopify_headers) ++ "...)".

Definition cookies_note (shopify_cookies : list string) : string :=
  "Знайдено Shopify-кукі: " ++ Str.join ", " (firstn 6 shopify_cookies).

Definition markers_note (marker_hits : list string) : string :=
  "У розмітці є маркери: " ++ Str.join ", " marker_hits.

Definition no_signal_note (final_url : string) : string :=
  "Немає ознак Shopify на " ++ final_url.

Definition failure_note (candidate e : string) : string :=
  "Не вдалося відкрити " ++ candidate ++ ": " ++ e.

(** The body of the [try] block for one candidate: [Some v] when a
    [return] is reached, [None] when the loop goes on. *)
Definition attempt (candidate : string) : M (option Verdict) :=
  r <- fetch candidate ;;
  let final_url := url r in
  let shopify_headers := shopify_headers_of r in
  if nonempty shopify_headers then
    reasons_append (headers_note shopify_headers) ;;
    '(ok_cart, cart_reason) <- try_cart_json final_url ;;
    when ok_cart (reasons_append cart_reason) ;;
    rs <- get_reasons ;;
    ret (Some (mkVerdict true High (Some final_url) rs))
  else
    let shopify_cookies := shopify_cookies_of r in
    when (nonempty shopify_cookies) (reasons_append (cookies_note shopify_cookies)) ;;
    let text := Str.or_else (text r) "" in
    let marker_hits := check_body_markers text in
    when (nonempty marker_hits) (reasons_append (markers_note marker_hits)) ;;
    '(ok_cart, cart_reason) <- try_cart_json final_url ;;
    if ok_cart then
      reasons_append cart_reason ;;
      rs <- get_reasons ;;
      ret (Some (mkVerdict true High (Some final_url) rs))
    else if nonempty shopify_cookies && nonempty marker_hits then
      rs <- get_reasons ;;
      ret (Some (mkVerdict true High (Some final_url) (rs ++ [cart_reason])%list))
    else if nonempty shopify_cookies || nonempty marker_hits then
      rs <- get_reasons ;;
      ret (Some (mkVerdict true Medium (Some final_url) (rs ++ [cart_reason])%list))
    else
      reasons_append (no_signal_note final_url) ;;
      ret None.

(** The [for] loop over the candidates and the final [return]. *)
Fixpoint for_candidates (candidates : list string) : M Verdict :=
  match candidates with
  | [] =>
      rs <- get_reasons ;;
      ret (mkVerdict false Low None rs)
  | candidate :: rest =>
      decided <- try_except (attempt candidate)
                   (fun e => reasons_append (failure_note candidate e) ;; ret None) ;;
      match decided with
      | Some v => ret v
      | None => for_candidates rest
      end
  end.

Definition is_shopify_site (input_url : string) : M Verdict :=
  candidates <- lift (normalize_candidates py input_url) ;;
  for_candidates candidates.

(** One detection run: the result, and the network calls it made. *)
Definition run (input_url : string) : result Verdict * list Call :=
  let (res, s) := is_shopify_site input_url init in (res, history s).

End Engine.

(** ** The route [/]

    [index] reads [request.method] and [request.form] and hands five
    values to [render_template]; the model returns those five values and
    the network calls made.  Each call of [is_shopify_site] starts with a
    fresh [reasons]. *)

Record Request : Type := mkRequest {
  method : string;
  form : list (string * string)
}.

(** [request.form.get(key, default)] *)
Fixpoint form_get (fields : list (string * string)) (key default : string) : string :=
  match fields with
  | [] => default
  | (k, v) :: fields' => if String.eqb k key then v else form_get fields' key default
  end.

(** The keyword arguments of [render_template("index.html", ...)]. *)
Record IndexContext : Type := mkContext {
  ctx_result : option string;
  ctx_details : list string;
  ctx_confidence : option string;
  ctx_final_url : option string;
  ctx_input_value : string
}.

Definition shopify_message (confidence : string) : string :=
  "✅ Схоже, що це сайт на Shopify (впевненість: " ++ confidence ++ ").".

Definition no_shopify_message : string := "❌ Ознак Shopify не знайдено.".

Definition index (py : PyRuntime) (net : Network) (request : Request)
  : result IndexContext * list Call :=
  if String.eqb (method request) "POST" then
    let input_value := Str.strip (form_get (form request) "site_url" "") in
    match run py net input_value with
    | (Return v, h) =>
        let confidence := confidence_label (confidence v) in
        let result :=
          if isShopify v then shopify_message confidence else no_shopify_message in
        (Return (mkContext (Some result) (evidence v) (Some confidence)
                   (resolvedUrl v) input_value), h)
    | (Raise e, h) => (Raise e, h)
    end
  else (Return (mkContext None [] None None ""), []).

(** The characters a compiled pattern asks for, without its boundary
    tests. *)
Fixpoint pattern_text (pat : list Re.atom) : string :=
  match pat with
  | [] => EmptyString
  | Re.Chr c :: pat' => String c (pattern_text pat')
  | Re.WordB :: pat' => pattern_text pat'
  end.

(** Is the pattern free of boundary tests? *)
Fixpoint plain (pat : list Re.atom) : bool :=
  match pat with
  | [] => true
  | Re.Chr _ :: pat' => plain pat'
  | Re.WordB :: _ => false
  end.

(** The last character of [a], or [prev] when [a] is empty. *)
Fixpoint last_or (prev : option ascii) (a : string) : option ascii :=
  match a with
  | EmptyString => prev
  | String t a' => last_or (Some t) a'
  end.

(** Is [t] empty, or does it start with an ASCII white-space character? *)
Definition starts_with_space (t : string) : Prop :=
  match t with
  | EmptyString => True
  | String d _ => Str.isspace d = true
  end.

(** Is a call the probe of a candidate? *)
Definition is_probe (call : Call) : bool :=
  match purpose call with
  | Probe => true
  | CartCheck => false
  end.

(** ** The engine, step by step

    Notions derived from the code, in which its properties are stated:
    what [try_cart_json] answers as a function of the reply it gets, the
    notes and the tier a response leads to, and the loop as a relation. *)

Section EngineSteps.

Variable py : PyRuntime.
Variable net : Network.

(** What [try_cart_json] returns, from the answer to its request. *)
Definition cart_result (cart_url : string) (out : result Response) : bool * string :=
  match out with
  | Raise e => (false, cart_error_message e)
  | Return r =>
      let ctype := Str.lower (headers_get (headers r) "Content-Type" "") in
      if (status_code r =? 200)%Z && Str.startswith ctype "application/json" then
        match json r with
        | Raise e => (false, cart_error_message e)
        | Return data =>
            if is_dict data
               && (dict_has "items" data || dict_has "token" data
                   || dict_has "attributes" data)
            then (true, cart_ok_message cart_url)
            else (false, cart_negative_message r ctype)
        end
      else (false, cart_negative_message r ctype)
  end.

(** The notes the three signal checks leave for a response. *)
Definition signal_notes (r : Response) : list string :=
  if nonempty (shopify_headers_of r) then [headers_note (shopify_headers_of r)]
  else
    ((if nonempty (shopify_cookies_of r)
      then [cookies_note (shopify_cookies_of r)] else [])
     ++ (if nonempty (check_body_markers (Str.or_else (text r) ""))
         then [markers_note (check_body_markers (Str.or_else (text r) ""))] else []))%list.

(** The note the auxiliary check leaves in a positive verdict. *)
Definition cart_notes (r : Response) (cart : bool * string) : list string :=
  if nonempty (shopify_headers_of r) && negb (fst cart) then [] else [snd cart].

(** The tier a response and the outcome of its auxiliary check lead to,
    if they decide the run. *)
Definition decision (r : Response) (ok_cart : bool) : option Confidence :=
  let has_cookies := nonempty (shopify_cookies_of r) in
  let has_markers := nonempty (check_body_markers (Str.or_else (text r) "")) in
  if nonempty (shopify_headers_of r) then Some High
  else if ok_cart then Some High
  else if has_cookies && has_markers then Some High
  else if has_cookies || has_markers then Some Medium
  else None.

(** One turn of the loop: the [try] block and its [except] clause. *)
Definition turn (candidate : string) : M (option Verdict) :=
  try_except (attempt py net candidate)
    (fun e => reasons_append (failure_note candidate e) ;; ret None).

Local Open Scope list_scope.

(** *** The loop as a relation

    [Loop candidates s v t]: started in state [s], the loop over
    [candidates] makes the calls [t] and the run returns [v]. *)

Inductive Loop : list string -> State -> Verdict -> list Call -> Prop :=
| Loop_exhausted (s : State) :
    Loop [] s (mkVerdict false Low None (reasons s)) []
| Loop_unreachable (c : string) (rest : list string) (s : State) (e : string)
    (v : Verdict) (t : list Call) :
    net (history s) c = Raise e ->
    Loop rest (mkState (history s ++ [mkCall Probe c (Raise e)])
                       (reasons s ++ [failure_note c e])) v t ->
    Loop (c :: rest) s v (mkCall Probe c (Raise e) :: t)
| Loop_decided (c : string) (rest : list string) (s : State) (r : Response)
    (cart_url : string) (out : result Response) (tier : Confidence) :
    net (history s) c = Return r ->
    cart_url = urljoin py (url r) "/cart.js" ->
    out = net (history s ++ [mkCall Probe c (Return r)]) cart_url ->
    decision r (fst (cart_result cart_url out)) = Some tier ->
    Loop (c :: rest) s
      (mkVerdict true tier (Some (url r))
         (reasons s ++ signal_notes r ++ cart_notes r (cart_result cart_url out)))
      [mkCall Probe c (Return r); mkCall CartCheck cart_url out]
| Loop_no_signal (c : string) (rest : list string) (s : State) (r : Response)
    (cart_url : string) (out : result Response) (v : Verdict) (t : list Call) :
    net (history s) c = Return r ->
    cart_url = urljoin py (url r) "/cart.js" ->
    out = net (history s ++ [mkCall Probe c (Return r)]) cart_url ->
    decision r (fst (cart_result cart_url out)) = None ->
    Loop rest (mkState (history s ++ [mkCall Probe c (Return r);
                                      mkCall CartCheck cart_url out])
                       (reasons s ++ [no_signal_note (url r)])) v t ->
    Loop (c :: rest) s v
      (mkCall Probe c (Return r) :: mkCall CartCheck cart_url out :: t).

End EngineSteps.

(** ** A reference runtime

    Instances of the runtime used to evaluate the engine on concrete
    inputs.  [Ref.urlparse] follows [urllib.parse.urlparse] of CPython
    3.11 on ASCII text, without the validation of what stands between
    the brackets of an IPv6 host; [Ref.urljoin] covers the use [main.py]
    makes of [urljoin]: an [http] or [https] base and a reference that
    is an absolute path. *)

Module Ref.

(** The text before the first character satisfying [p], and the text
    from that character on. *)
Fixpoint break (p : ascii -> bool) (s : string) : string * string :=
  match s with
  | EmptyString => (EmptyString, EmptyString)
  | String c s' =>
      if p c then (EmptyString, s)
      else let (a, b) := break p s' in (String c a, b)
  end.

Definition is_char (c : ascii) : ascii -> bool := Ascii.eqb c.

Definition contains (c : ascii) (s : string) : bool := Str.mem_ascii c s.

(** [s.split(c, 1)] when [c] occurs in [s] *)
Definition split_once (c : ascii) (s : string) : string * string :=
  let (a, b) := break (is_char c) s in (a, Str.drop 1 b).

Definition is_alpha (c : ascii) : bool :=
  let n := nat_of_ascii c in
  ((65 <=? n)%nat && (n <=? 90)%nat) || ((97 <=? n)%nat && (n <=? 122)%nat).

Definition is_scheme_char (c : ascii) : bool :=
  let n := nat_of_ascii c in
  is_alpha c || ((48 <=? n)%nat && (n <=? 57)%nat)
  || Ascii.eqb c "+" || Ascii.eqb c "-" || Ascii.eqb c ".".

Fixpoint all_chars (p : ascii -> bool) (s : string) : bool :=
  match s with
  | EmptyString => true
  | String c s' => p c && all_chars p s'
  end.

Fixpoint remove_chars (p : ascii -> bool) (s : string) : string :=
  match s with
  | EmptyString => EmptyString
  | String c s' => if p c then remove_chars p s' else String c (remove_chars p s')
  end.

Definition is_c0_or_space (c : ascii) : bool := (nat_of_ascii c <=? 32)%nat.

Definition is_unsafe (c : ascii) : bool :=
  let n := nat_of_ascii c in
  (n =? 9)%nat || (n =? 10)%nat || (n =? 13)%nat.

(** The scheme and what follows its colon. *)
Definition split_scheme (u : string) : string * string :=
  let (a, b) := break (is_char ":") u in
  match a, b with
  | String c _, String _ rest =>
      if is_alpha c && all_chars is_scheme_char a then (Str.lower a, rest)
      else (EmptyString, u)
  | _, _ => (EmptyString, u)
  end.

Definition is_delim (c : ascii) : bool :=
  Ascii.eqb c "/" || Ascii.eqb c "?" || Ascii.eqb c "#".

(** [_splitparams] *)
Fixpoint after_last_slash (s : string) : option string :=
  match s with
  | EmptyString => None
  | String c s' =>
      match after_last_slash s' with
      | Some t => Some t
      | None => if Ascii.eqb c "/" then Some s' else None
      end
  end.

Definition splitparams (u : string) : string * string :=
  let tail := match after_last_slash u with Some t => t | None => u end in
  if contains ";" tail then
    let (a, b) := split_once ";" tail in
    (String.substring 0 (String.length u - String.length tail) u ++ a, b)
  else (u, EmptyString).

Definition urlparse (u : string) : result ParseResult :=
  let u := Str.lstrip_by is_c0_or_space u in
  let u := remove_chars is_unsafe u in
  let (sch, u) := split_scheme u in
  let '(loc, u) :=
    if Str.startswith u "//" then break is_delim (Str.drop 2 u)
    else (EmptyString, u) in
  if xorb (contains "[" loc) (contains "]" loc) then Raise "Invalid IPv6 URL"
  else
    let '(u, frag) :=
      if contains "#" u then split_once "#" u else (u, EmptyString) in
    let '(u, qry) :=
      if contains "?" u then split_once "?" u else (u, EmptyString) in
    let '(u, prm) :=
      if (String.eqb sch "http" || String.eqb sch "https") && contains ";" u
      then splitparams u else (u, EmptyString) in
    Return (mkParse sch loc u prm qry frag).

Definition urljoin (base ref : string) : string :=
  match urlparse base with
  | Return p =>
      if (String.eqb (scheme p) "http" || String.eqb (scheme p) "https")
         && Str.startswith ref "/" && negb (Str.startswith ref "//")
      then scheme p ++ "://" ++ netloc p ++ ref
      else ref
  | Raise _ => ref
  end.

(** A set that is visited in the order its elements were added, and one
    that is visited in the opposite order. *)
Definition py_added_first : PyRuntime :=
  mkRuntime urlparse urljoin (fun s => s) (fun s _ => Permutation_refl s).

Definition py_added_last : PyRuntime :=
  mkRuntime urlparse urljoin (@rev string) (fun s _ => Permutation_sym (Permutation_rev s)).

(** A network given by a table of addresses; any other address cannot
    be reached. *)
Fixpoint lookup (u : string) (table : list (string * result Response))
  : result Response :=
  match table with
  | [] => Raise "Connection refused"
  | (k, out) :: table' => if String.eqb u k then out else lookup u table'
  end.

Definition net_of (table : list (string * result Response)) : Network :=
  fun _ u => lookup u table.

Definition net_down : Network := net_of [].

Definition page (u : string) (hs cs : list (string * string)) (body : string)
  : Response :=
  mkResponse u 200 (hs ++ [("Content-Type", "text/html; charset=utf-8")])%list cs body
    (Raise "Expecting value: line 1 column 1 (char 0)").

Definition not_found (u : string) : Response :=
  mkResponse u 404 [("Content-Type", "text/html")] [] "Not Found"
    (Raise "Expecting value: line 1 column 1 (char 0)").

Definition dq : string := String (ascii_of_nat 34) EmptyString.

Definition cart_json (u : string) : Response :=
  mkResponse u 200 [("content-type", "application/json; charset=utf-8")] []
    ("{" ++ dq ++ "token" ++ dq ++ ": " ++ dq ++ "abc" ++ dq ++ ", "
         ++ dq ++ "items" ++ dq ++ ": []}")
    (Return (JDict [("token", JStr "abc"); ("items", JList [])])).

End Ref.

(** ** Concrete sites *)

Module Scenario.

Definition shop : string := "https://shop.example/".
Definition shop_cart : string := "https://shop.example/cart.js".

(** A store front that answers with vendor headers, a vendor cookie and
    a vendor marker in its page. *)
Definition store_page : Response :=
  Ref.page shop
    [("X-Shopify-Stage", "production"); ("X-ShopId", "42")]
    [("_shopify_y", "abc"); ("session", "1")]
    "<script src=//cdn.shopify.com/s/files/theme.js></script>".

(** A page with a vendor cookie and a vendor marker, and no vendor header. *)
Definition cached_page : Response :=
  Ref.page shop [("Server", "nginx")]
    [("_shopify_y", "abc")]
    "<script src=//cdn.shopify.com/s/files/theme.js></script>".

(** A page without any of the three signals. *)
Definition plain_page : Response :=
  Ref.page shop [("Server", "nginx")] [("session", "1")] "<html>Hello</html>".

(** The store front, whose [/cart.js] is not found. *)
Definition net_store : Network :=
  Ref.net_of [(shop, Return store_page); (shop_cart, Return (Ref.not_found shop_cart))].

Definition net_cached : Network :=
  Ref.net_of [(shop, Return cached_page); (shop_cart, Return (Ref.not_found shop_cart))].

(** A plain page whose [/cart.js] answers with the cart in JSON. *)
Definition net_headless : Network :=
  Ref.net_of [(shop, Return plain_page); (shop_cart, Return (Ref.cart_json shop_cart))].

End Scenario.

(** ** The claims as they are worded, where the code departs from them *)

(** Every check is evaluated on every probed response.  A check that is
    evaluated and finds its signal appends its note to [reasons] (lines
    104-105, 115-116 and 122-123 of [main.py]), and every [return] hands
    back all of [reasons]; so, for a response that carries a signal, the
    check was evaluated exactly when its note is in the evidence. *)
Definition every_check_reported (py : PyRuntime) (net : Network) (input : string) : Prop :=
  forall v h c r,
    run py net input = (Return v, h) ->
    In (mkCall Probe c (Return r)) h ->
    (shopify_headers_of r <> [] ->
     In (headers_note (shopify_headers_of r)) (evidence v))
    /\ (shopify_cookies_of r <> [] ->
        In (cookies_note (shopify_cookies_of r)) (evidence v))
    /\ (check_body_markers (text r) <> [] ->
        In (markers_note (check_body_markers (text r))) (evidence v)).


(** * Properties *)

(** ** Strings *)

Lemma append_nil_r (s : string) : s ++ "" = s.
Proof. induction s as [|c s IH]; simpl; [reflexivity | now rewrite IH]. Qed.

Lemma append_assoc (a b c : string) : (a ++ b) ++ c = a ++ (b ++ c).
Proof. induction a as [|x a IH]; simpl; [reflexivity | now rewrite IH]. Qed.

Lemma length_append (a b : string) :
  String.length (a ++ b) = (String.length a + String.length b)%nat.
Proof. induction a as [|x a IH]; simpl; [reflexivity | now rewrite IH]. Qed.

Lemma prefix_inv (p s : string) :
  String.prefix p s = true -> s = p ++ Str.drop (String.length p) s.
Proof.
  revert s. induction p as [|a p IH]; intros s H; simpl.
  - reflexivity.
  - destruct s as [|b s]; simpl in H; [discriminate|].
    destruct (ascii_dec a b) as [<-|]; [|discriminate].
    f_equal. now apply IH.
Qed.

Lemma prefix_append (p s t : string) :
  String.prefix p s = true -> String.prefix p (s ++ t) = true.
Proof.
  revert s. induction p as [|a p IH]; intros s H.
  - now destruct (s ++ t).
  - destruct s as [|b s]; simpl in *; [discriminate|].
    destruct (ascii_dec a b); [now apply IH | discriminate].
Qed.

Lemma drop_append (a b : string) : Str.drop (String.length a) (a ++ b) = b.
Proof. induction a as [|c a IH]; [now destruct b | exact IH]. Qed.

Lemma length_drop (n : nat) (s : string) :
  String.length (Str.drop n s) = (String.length s - n)%nat.
Proof.
  revert s. induction n as [|n IH]; intros s; simpl.
  - lia.
  - destruct s as [|c s]; simpl; [reflexivity | apply IH].
Qed.

Lemma concat_cons (x : string) (xs : list string) :
  String.concat "" (x :: xs) = x ++ String.concat "" xs.
Proof. destruct xs; simpl; [now rewrite append_nil_r | reflexivity]. Qed.

(** ** White space *)

Lemma first_prefix_found (ws : list string) (s : string) (n : nat) :
  Str.first_prefix ws s = S n ->
  exists w, In w ws /\ String.prefix w s = true /\ String.length w = S n.
Proof.
  induction ws as [|w ws IH]; simpl; [discriminate|].
  destruct (String.prefix w s) eqn:E.
  - intros H. exists w. auto.
  - intros H. destruct (IH H) as (w' & Hin & Hp & Hl). exists w'. auto.
Qed.

Lemma first_prefix_none (ws : list string) (s : string) :
  (forall w, In w ws -> w <> "") ->
  Str.first_prefix ws s = O ->
  forall w, In w ws -> String.prefix w s = false.
Proof.
  induction ws as [|w ws IH]; simpl; [contradiction|].
  intros Hne H w' Hin. destruct (String.prefix w s) eqn:E.
  - destruct w; [|discriminate]. now destruct (Hne "" (or_introl eq_refl)).
  - destruct Hin as [<-|Hin]; [assumption|]. apply IH; auto.
Qed.

Lemma first_prefix_ext (ws : list string) (s s' : string) :
  (forall w, In w ws -> String.prefix w s = String.prefix w s') ->
  Str.first_prefix ws s = Str.first_prefix ws s'.
Proof.
  induction ws as [|w ws IH]; intros H; simpl; [reflexivity|].
  rewrite <- (H w (or_introl eq_refl)). rewrite IH; [reflexivity|].
  intros w' Hin. apply H. now right.
Qed.

Lemma WHITESPACE_nonempty (w : string) : In w Str.WHITESPACE -> w <> "".
Proof.
  intros H E. subst. vm_compute in H.
  repeat (destruct H as [H|H]; [discriminate H|]). exact H.
Qed.

(** No white-space character begins like another one. *)
Lemma ws_len_enc (w z : string) :
  In w Str.WHITESPACE -> Str.ws_len (w ++ z) = String.length w.
Proof.
  intros H. unfold Str.WHITESPACE in H. simpl in H.
  repeat (destruct H as [<-|H]; [destruct z; vm_compute; reflexivity|]).
  contradiction.
Qed.

Lemma ws_len_inv (s : string) (n : nat) :
  Str.ws_len s = S n ->
  exists w z, In w Str.WHITESPACE /\ s = w ++ z /\ String.length w = S n.
Proof.
  intros H. destruct (first_prefix_found _ _ _ H) as (w & Hin & Hp & Hl).
  exists w, (Str.drop (String.length w) s). repeat split; try assumption.
  now apply prefix_inv.
Qed.

Lemma lstrip_from_drop (k : nat) (s : string) :
  Str.lstrip_from k s = Str.lstrip (Str.drop k s).
Proof.
  revert s. induction k as [|k IH]; intros s.
  - reflexivity.
  - destruct s as [|c s]; [reflexivity | apply IH].
Qed.

Lemma lstrip_step (s : string) :
  Str.lstrip s
  = match Str.ws_len s with
    | O => s
    | S k => Str.lstrip (Str.drop (S k) s)
    end.
Proof.
  destruct s as [|c s]; [reflexivity|].
  unfold Str.lstrip at 1. cbn [Str.lstrip_from].
  destruct (Str.ws_len (String c s)); [reflexivity|].
  cbn [Str.drop]. apply lstrip_from_drop.
Qed.

Lemma lstrip_enc (w z : string) :
  In w Str.WHITESPACE -> Str.lstrip (w ++ z) = Str.lstrip z.
Proof.
  intros H. rewrite lstrip_step, (ws_len_enc w z H).
  destruct (String.length w) eqn:E.
  - destruct w; [now apply WHITESPACE_nonempty in H | discriminate].
  - now rewrite <- E, drop_append.
Qed.

Lemma lstrip_concat (ws : list string) (z : string) :
  Forall (fun ch => In ch Str.WHITESPACE) ws ->
  Str.lstrip (String.concat "" ws ++ z) = Str.lstrip z.
Proof.
  induction 1 as [|w ws Hw Hws IH]; [reflexivity|].
  now rewrite concat_cons, append_assoc, (lstrip_enc _ _ Hw).
Qed.

(** A string made of white-space characters strips to nothing. *)
Lemma strip_whitespace (ws : list string) :
  Forall (fun ch => In ch Str.WHITESPACE) ws ->
  Str.strip (String.concat "" ws) = "".
Proof.
  intros H. unfold Str.strip.
  rewrite <- (append_nil_r (String.concat "" ws)), (lstrip_concat ws "" H).
  reflexivity.
Qed.

Lemma lstrip_measure (n : nat) :
  forall s, (String.length s <= n)%nat -> Str.ws_len (Str.lstrip s) = O.
Proof.
  induction n as [|n IH]; intros s Hn; rewrite lstrip_step.
  - destruct s; [reflexivity | simpl in Hn; lia].
  - destruct (Str.ws_len s) as [|k] eqn:E; [assumption|].
    apply IH. rewrite length_drop. lia.
Qed.

Lemma lstrip_head (s : string) : Str.ws_len (Str.lstrip s) = O.
Proof. apply (lstrip_measure (String.length s)). lia. Qed.

Lemma lstrip_fixed (s : string) : Str.ws_len s = O -> Str.lstrip s = s.
Proof. intros H. now rewrite lstrip_step, H. Qed.

Lemma lstrip_blank_measure (n : nat) :
  forall a b, (String.length a <= n)%nat ->
              Str.lstrip a = "" -> Str.lstrip (a ++ b) = Str.lstrip b.
Proof.
  induction n as [|n IH]; intros a b Hn Ha.
  - destruct a; [reflexivity | simpl in Hn; lia].
  - destruct (Str.ws_len a) as [|k] eqn:E.
    + rewrite (lstrip_fixed a E) in Ha. now subst.
    + destruct (ws_len_inv a k E) as (w & z & Hw & -> & Hl).
      rewrite (lstrip_enc w z Hw) in Ha.
      rewrite append_assoc, (lstrip_enc w _ Hw).
      apply IH; [|assumption]. rewrite length_append in Hn. lia.
Qed.

Lemma lstrip_blank_app (a b : string) :
  Str.lstrip a = "" -> Str.lstrip (a ++ b) = Str.lstrip b.
Proof. apply (lstrip_blank_measure (String.length a)). lia. Qed.

Lemma blank_lstrip (s : string) : Str.blank s = true <-> Str.lstrip s = "".
Proof. unfold Str.blank. destruct (Str.lstrip s); simpl; split; congruence. Qed.

Lemma rstrip_split (s : string) :
  exists tail, s = Str.rstrip s ++ tail /\ Str.lstrip tail = "".
Proof.
  induction s as [|c s (tail & Hs & Ht)].
  - now exists "".
  - cbn [Str.rstrip]. destruct (Str.blank (String c s)) eqn:E.
    + exists (String c s). split; [reflexivity | now apply blank_lstrip].
    + exists tail. split; [simpl; now rewrite <- Hs | assumption].
Qed.

Lemma rstrip_idem (s : string) : Str.rstrip (Str.rstrip s) = Str.rstrip s.
Proof.
  induction s as [|c s IH]; [reflexivity|].
  cbn [Str.rstrip]. destruct (Str.blank (String c s)) eqn:E; [reflexivity|].
  cbn [Str.rstrip]. rewrite IH.
  destruct (Str.blank (String c (Str.rstrip s))) eqn:E'; [|reflexivity].
  exfalso. destruct (rstrip_split s) as (tail & Hs & Ht).
  apply blank_lstrip in E'.
  assert (Hb : Str.lstrip (String c s) = "").
  { rewrite Hs at 1.
    change (String c (Str.rstrip s ++ tail)) with (String c (Str.rstrip s) ++ tail).
    now rewrite (lstrip_blank_app _ tail E'). }
  apply blank_lstrip in Hb. congruence.
Qed.

Lemma lstrip_rstrip (u : string) :
  Str.ws_len u = O -> Str.lstrip (Str.rstrip u) = Str.rstrip u.
Proof.
  intros Hu. destruct u as [|c u]; [reflexivity|].
  cbn [Str.rstrip]. destruct (Str.blank (String c u)); [reflexivity|].
  apply lstrip_fixed.
  destruct (Str.ws_len (String c (Str.rstrip u))) as [|k] eqn:E; [reflexivity|].
  exfalso. destruct (first_prefix_found _ _ _ E) as (w & Hin & Hp & Hl).
  destruct (rstrip_split u) as (tail & Hs & _).
  pose proof (prefix_append w _ tail Hp) as Hp'.
  change (String c (Str.rstrip u) ++ tail) with (String c (Str.rstrip u ++ tail)) in Hp'.
  rewrite <- Hs in Hp'.
  rewrite (first_prefix_none _ _ WHITESPACE_nonempty Hu w Hin) in Hp'.
  discriminate.
Qed.

Lemma strip_idem (s : string) : Str.strip (Str.strip s) = Str.strip s.
Proof.
  unfold Str.strip. now rewrite (lstrip_rstrip _ (lstrip_head s)), rstrip_idem.
Qed.

(** *** Padding with ASCII white space *)

Lemma in_whitespace (ch : string) :
  existsb (String.eqb ch) Str.WHITESPACE = true -> In ch Str.WHITESPACE.
Proof.
  intros E. apply existsb_exists in E. destruct E as (w & Hin & Heq).
  apply String.eqb_eq in Heq. now subst.
Qed.

Lemma isspace_In (c : ascii) :
  Str.isspace c = true -> In (String c "") Str.WHITESPACE.
Proof.
  intros H.
  assert (E : existsb (String.eqb (String c "")) Str.WHITESPACE = true).
  { destruct c as [[] [] [] [] [] [] [] []]; try discriminate H; reflexivity. }
  apply existsb_exists in E. destruct E as (w & Hin & Heq).
  apply String.eqb_eq in Heq. now subst.
Qed.

Lemma lstrip_spaces (ws : string) :
  Forall (fun c => Str.isspace c = true) (list_ascii_of_string ws) ->
  Str.lstrip ws = "".
Proof.
  induction ws as [|c ws IH]; simpl; intros H; [reflexivity|].
  inversion H as [|? ? Hc Hs]; subst.
  change (String c ws) with (String c "" ++ ws).
  rewrite (lstrip_enc _ _ (isspace_In c Hc)). now apply IH.
Qed.

Lemma spaces_start (ws : string) :
  Forall (fun c => Str.isspace c = true) (list_ascii_of_string ws) ->
  starts_with_space ws.
Proof. destruct ws; simpl; [trivial | now inversion 1]. Qed.

Lemma prefix_tail_pad (p : string) :
  Forall (fun b => Str.isspace b = false) (list_ascii_of_string p) ->
  forall y t, starts_with_space t ->
              String.prefix p (y ++ t) = String.prefix p y.
Proof.
  induction p as [|b p IH]; intros Hp y t Ht.
  - destruct (y ++ t), y; reflexivity.
  - inversion Hp as [|? ? Hb Hp']; subst.
    destruct y as [|c y]; simpl.
    + destruct t as [|d t]; [reflexivity|]. simpl in Ht. simpl.
      destruct (ascii_dec b d) as [->|]; [congruence | reflexivity].
    + destruct (ascii_dec b c); [now apply IH | reflexivity].
Qed.

Lemma WHITESPACE_tail (a : ascii) (p : string) :
  In (String a p) Str.WHITESPACE ->
  Forall (fun b => Str.isspace b = false) (list_ascii_of_string p).
Proof.
  intros H. vm_compute in H.
  repeat (destruct H as [H|H];
          [injection H as <- <-; repeat constructor|]).
  contradiction.
Qed.

Lemma prefix_pad (w y t : string) :
  In w Str.WHITESPACE -> y <> "" -> starts_with_space t ->
  String.prefix w (y ++ t) = String.prefix w y.
Proof.
  intros Hw Hy Ht. destruct y as [|c y]; [congruence|].
  destruct w as [|a p]; [reflexivity|]. simpl.
  destruct (ascii_dec a c); [|reflexivity].
  apply prefix_tail_pad; [now apply (WHITESPACE_tail a) | assumption].
Qed.

Lemma ws_len_pad (y t : string) :
  y <> "" -> starts_with_space t -> Str.ws_len (y ++ t) = Str.ws_len y.
Proof.
  intros Hy Ht. apply first_prefix_ext. intros w Hw. now apply prefix_pad.
Qed.

Lemma lstrip_pad_measure (n : nat) (ws : string) :
  Forall (fun c => Str.isspace c = true) (list_ascii_of_string ws) ->
  forall y, (String.length y <= n)%nat ->
            Str.lstrip (y ++ ws)
            = if Str.is_empty (Str.lstrip y) then "" else Str.lstrip y ++ ws.
Proof.
  intros Hws. induction n as [|n IH]; intros y Hn.
  - destruct y; [|simpl in Hn; lia]. simpl. now apply lstrip_spaces.
  - destruct y as [|c y]; [simpl; now apply lstrip_spaces|].
    rewrite (lstrip_step (String c y ++ ws)), (lstrip_step (String c y)).
    rewrite ws_len_pad; [|discriminate | now apply spaces_start].
    destruct (Str.ws_len (String c y)) as [|k] eqn:E; [reflexivity|].
    destruct (ws_len_inv _ _ E) as (w & z & Hw & Hs & Hl).
    rewrite Hs, append_assoc, <- Hl, !drop_append.
    apply IH. apply (f_equal String.length) in Hs.
    rewrite length_append in Hs. simpl in Hs, Hn. lia.
Qed.

Lemma lstrip_pad_right (y ws : string) :
  Forall (fun c => Str.isspace c = true) (list_ascii_of_string ws) ->
  Str.lstrip (y ++ ws)
  = if Str.is_empty (Str.lstrip y) then "" else Str.lstrip y ++ ws.
Proof. intros H. apply (lstrip_pad_measure (String.length y) ws H). lia. Qed.

Lemma blank_pad (y ws : string) :
  Forall (fun c => Str.isspace c = true) (list_ascii_of_string ws) ->
  Str.blank (y ++ ws) = Str.blank y.
Proof.
  intros H. unfold Str.blank. rewrite (lstrip_pad_right y ws H).
  destruct (Str.lstrip y); reflexivity.
Qed.

Lemma rstrip_pad_right (x ws : string) :
  Forall (fun c => Str.isspace c = true) (list_ascii_of_string ws) ->
  Str.rstrip (x ++ ws) = Str.rstrip x.
Proof.
  intros H. induction x as [|c x IH].
  - simpl. destruct ws as [|d ws]; [reflexivity|]. cbn [Str.rstrip].
    unfold Str.blank. now rewrite (lstrip_spaces _ H).
  - change (String c x ++ ws) with (String c (x ++ ws)). cbn [Str.rstrip].
    change (String c (x ++ ws)) with (String c x ++ ws).
    now rewrite (blank_pad _ ws H), IH.
Qed.

Lemma strip_pad (ws1 s ws2 : string) :
  Forall (fun c => Str.isspace c = true) (list_ascii_of_string ws1) ->
  Forall (fun c => Str.isspace c = true) (list_ascii_of_string ws2) ->
  Str.strip (ws1 ++ s ++ ws2) = Str.strip s.
Proof.
  intros H1 H2. unfold Str.strip.
  rewrite (lstrip_blank_app ws1 _ (lstrip_spaces ws1 H1)), (lstrip_pad_right s ws2 H2).
  destruct (Str.lstrip s) as [|c t]; [reflexivity|].
  cbn [Str.is_empty]. now apply rstrip_pad_right.
Qed.

(** ** The normalizer *)

Lemma set_add_fresh (u : string) (s : pyset) :
  set_mem u s = false -> set_add u s = (s ++ [u])%list.
Proof. unfold set_add. now intros ->. Qed.

Lemma set_mem_In (u : string) (s : pyset) : set_mem u s = true <-> In u s.
Proof.
  unfold set_mem. rewrite existsb_exists. split.
  - intros [x [Hx Heq]]. apply String.eqb_eq in Heq. now subst.
  - intros H. exists u. split; [assumption | apply String.eqb_refl].
Qed.

Lemma set_mem_not_In (u : string) (s : pyset) : set_mem u s = false <-> ~ In u s.
Proof.
  rewrite <- set_mem_In. destruct (set_mem u s); split; intros; congruence.
Qed.

Lemma NoDup_snoc (u : string) (s : list string) :
  NoDup s -> ~ In u s -> NoDup (s ++ [u]).
Proof.
  intros Hs Hu. apply NoDup_rev in Hs. rewrite <- (rev_involutive (s ++ [u])).
  apply NoDup_rev. rewrite rev_app_distr. simpl. constructor; [|assumption].
  now rewrite <- in_rev.
Qed.

Lemma set_add_NoDup (u : string) (s : pyset) : NoDup s -> NoDup (set_add u s).
Proof.
  intros Hs. unfold set_add. destruct (set_mem u s) eqn:E; [assumption|].
  apply NoDup_snoc; [assumption | now apply set_mem_not_In].
Qed.

Lemma set_add_length (u : string) (s : pyset) :
  (length (set_add u s) <= S (length s))%nat.
Proof.
  unfold set_add. destruct (set_mem u s); [lia|].
  rewrite length_app. simpl. lia.
Qed.

(** In the de-duplication loop [seen] and [uniq] hold the same elements
    in the same order. *)
Lemma dedup_spec (candidates : list string) :
  forall seen : pyset,
    NoDup seen ->
    NoDup (dedup candidates seen seen)
    /\ (length (dedup candidates seen seen) <= length seen + length candidates)%nat
    /\ (forall u, In u (dedup candidates seen seen) <-> In u seen \/ In u candidates).
Proof.
  induction candidates as [|u rest IH]; intros seen Hseen; simpl.
  - repeat split; [assumption | lia | tauto | tauto].
  - destruct (set_mem u seen) eqn:E; simpl.
    + destruct (IH seen Hseen) as (Hn & Hl & Hi). repeat split; [assumption | lia | |].
      * intros H. apply Hi in H. tauto.
      * intros [H|[H|H]]; apply Hi; [tauto | subst; left; now apply set_mem_In | tauto].
    + rewrite (set_add_fresh _ _ E).
      assert (Hseen' : NoDup (seen ++ [u])%list)
        by (apply NoDup_snoc; [assumption | now apply set_mem_not_In]).
      destruct (IH _ Hseen') as (Hn & Hl & Hi). repeat split; [assumption | | |].
      * rewrite length_app in Hl. simpl in Hl. lia.
      * intros H. apply Hi in H. rewrite in_app_iff in H. simpl in H. tauto.
      * intros H. apply Hi. rewrite in_app_iff. simpl. tauto.
Qed.

Lemma dedup_id (candidates : list string) :
  forall seen : pyset,
    NoDup (seen ++ candidates) ->
    dedup candidates seen seen = (seen ++ candidates)%list.
Proof.
  induction candidates as [|u rest IH]; intros seen H; simpl.
  - now rewrite app_nil_r.
  - assert (Hu : set_mem u seen = false).
    { apply set_mem_not_In. intros Hin.
      apply NoDup_remove_2 in H. apply H. apply in_or_app. now left. }
    rewrite Hu. simpl. rewrite (set_add_fresh _ _ Hu).
    rewrite IH; rewrite <- app_assoc; simpl; [reflexivity | assumption].
Qed.

Lemma base_hosts_NoDup (host : string) : NoDup (base_hosts_of host).
Proof.
  unfold base_hosts_of.
  destruct (negb (Str.startswith host "www.")); repeat apply set_add_NoDup; constructor.
Qed.

Lemma base_hosts_length (host : string) : (length (base_hosts_of host) <= 2)%nat.
Proof.
  unfold base_hosts_of.
  destruct (negb (Str.startswith host "www."));
    (eapply Nat.le_trans; [apply set_add_length|]);
    apply le_n_S; apply (set_add_length host []).
Qed.

Lemma flat_map_host_urls_length (hosts : list string) :
  length (flat_map host_urls hosts) = (2 * length hosts)%nat.
Proof.
  induction hosts as [|h hosts IH]; simpl; [reflexivity | rewrite IH; lia].
Qed.

(** Whatever the input, the normalizer either raises or returns nothing
    or returns the de-duplicated URLs of the hosts of [base_hosts]. *)
Lemma normalize_candidates_cases (py : PyRuntime) (raw : string) (l : list string) :
  normalize_candidates py raw = Return l ->
  l = [] \/ exists host,
      host <> EmptyString
      /\ l = dedup (flat_map host_urls (set_iter py (base_hosts_of host))) [] [].
Proof.
  unfold normalize_candidates.
  destruct (Str.is_empty (Str.strip raw)); [intros [= <-]; now left|].
  destruct (urlparse py _) as [p|e]; simpl; [|discriminate].
  destruct (Str.strip_chars "/" (Str.or_else (netloc p) (path p))) as [|c host] eqn:E; simpl.
  - intros [= <-]. now left.
  - intros [= <-]. right. exists (String c host). split; [discriminate | reflexivity].
Qed.

Lemma append_slash_inj (a b : string) : a ++ "/" = b ++ "/" -> a = b.
Proof.
  revert b. induction a as [|c a IH]; intros [|d b]; simpl; intros H.
  - reflexivity.
  - destruct b; discriminate.
  - destruct a; discriminate.
  - injection H as -> H. f_equal. now apply IH.
Qed.

Lemma host_urls_disjoint (h h' u : string) :
  In u (host_urls h) -> In u (host_urls h') -> h = h'.
Proof.
  unfold host_urls. simpl.
  intros [<-|[<-|[]]] [H|[H|[]]]; try discriminate;
    injection H as H; symmetry; now apply append_slash_inj.
Qed.

Lemma flat_map_host_urls_NoDup (hosts : list string) :
  NoDup hosts -> NoDup (flat_map host_urls hosts).
Proof.
  induction 1 as [|h hosts Hh Hn IH]; simpl; [constructor|].
  assert (Hfresh : forall u, In u (host_urls h) -> ~ In u (flat_map host_urls hosts)).
  { intros u Hu Hin. apply in_flat_map in Hin. destruct Hin as (h' & Hh' & Hu').
    now rewrite (host_urls_disjoint _ _ _ Hu Hu') in Hh. }
  constructor.
  - simpl. intros [H|H]; [discriminate|]. revert H. apply Hfresh. simpl. tauto.
  - constructor; [|assumption]. apply Hfresh. simpl. tauto.
Qed.

(** The URLs come out host by host, in the order in which the set
    [base_hosts] is iterated, [https] before [http] for each host; the
    de-duplication loop removes nothing. *)
Lemma normalize_candidates_shape (py : PyRuntime) (raw : string) (l : list string) :
  normalize_candidates py raw = Return l ->
  l = [] \/ exists host,
      host <> EmptyString
      /\ l = flat_map host_urls (set_iter py (base_hosts_of host)).
Proof.
  intros H. destruct (normalize_candidates_cases _ _ _ H) as [->|(host & Hne & ->)];
    [now left | right].
  exists host. split; [assumption|].
  apply (dedup_id _ []). simpl. apply flat_map_host_urls_NoDup.
  eapply Permutation_NoDup; [apply Permutation_sym, set_iter_perm|];
    apply base_hosts_NoDup.
Qed.

(** ** The engine, step by step *)

Section EngineFacts.

Variable py : PyRuntime.
Variable net : Network.

Local Open Scope list_scope.

Lemma try_cart_json_run (final_url : string) (s : State) :
  let cart_url := urljoin py final_url "/cart.js" in
  let out := net (history s) cart_url in
  try_cart_json py net final_url s
  = (Return (cart_result cart_url out),
     mkState (history s ++ [mkCall CartCheck cart_url out]) (reasons s)).
Proof.
  unfold try_cart_json, try_except, bind, requests_get, cart_result, lift, ret.
  cbv zeta. destruct (net (history s) _) as [r|e]; [|reflexivity].
  destruct (_ && _); [|reflexivity].
  destruct (json r) as [data|e]; [|reflexivity].
  destruct (_ && _); reflexivity.
Qed.

Lemma turn_unreachable (c : string) (s : State) (e : string) :
  net (history s) c = Raise e ->
  turn py net c s = (Return None,
              mkState (history s ++ [mkCall Probe c (Raise e)])
                      (reasons s ++ [failure_note c e])).
Proof.
  intros H. unfold turn, try_except, attempt, bind, fetch, requests_get.
  cbv zeta. rewrite H. reflexivity.
Qed.

Lemma turn_fetched (c : string) (s : State) (r : Response) :
  net (history s) c = Return r ->
  let h1 := (history s ++ [mkCall Probe c (Return r)])%list in
  let cart_url := urljoin py (url r) "/cart.js" in
  let out := net h1 cart_url in
  let cart := cart_result cart_url out in
  let h2 := (h1 ++ [mkCall CartCheck cart_url out])%list in
  match decision r (fst cart) with
  | Some tier =>
      exists rs,
      turn py net c s = (Return (Some (mkVerdict true tier (Some (url r))
                                  (reasons s ++ signal_notes r ++ cart_notes r cart))),
                  mkState h2 rs)
  | None =>
      signal_notes r = []
      /\ turn py net c s = (Return None, mkState h2 (reasons s ++ [no_signal_note (url r)]))
  end.
Proof.
  intros H. cbv zeta.
  unfold decision, signal_notes, cart_notes, turn, try_except, attempt, bind, fetch,
    requests_get. cbv zeta. rewrite H. cbv beta iota.
  destruct (nonempty (shopify_headers_of r)) eqn:Hh.
  - unfold reasons_append at 1. cbv beta iota. rewrite try_cart_json_run.
    cbv zeta. cbn [history reasons].
    destruct (cart_result _ _) as [ok msg]. cbn [fst snd].
    destruct ok; cbn; eexists; rewrite <- ?app_assoc; reflexivity.
  - destruct (nonempty (shopify_cookies_of r)) eqn:Hc;
      destruct (nonempty (check_body_markers _)) eqn:Hm;
      unfold when, reasons_append, ret, get_reasons; cbv beta iota;
      rewrite try_cart_json_run; cbv zeta; cbn [history reasons];
      destruct (cart_result _ _) as [ok msg]; cbn [fst snd];
      destruct ok; cbn; try (split; [reflexivity|]); try eexists;
      rewrite <- ?app_assoc; cbn; rewrite ?app_nil_r; reflexivity.
Qed.

Lemma for_candidates_unfold (c : string) (rest : list string) (s : State) :
  for_candidates py net (c :: rest) s
  = match turn py net c s with
    | (Return (Some v), s') => (Return v, s')
    | (Return None, s') => for_candidates py net rest s'
    | (Raise e, s') => (Raise e, s')
    end.
Proof.
  unfold turn. simpl. unfold bind at 1.
  destruct (try_except _ _ s) as [[[v|]|e] s']; reflexivity.
Qed.

(** The loop always returns, and the relation describes what it does. *)
Lemma for_candidates_Loop (candidates : list string) :
  forall s : State,
  exists v t s',
    for_candidates py net candidates s = (Return v, s')
    /\ history s' = (history s ++ t)%list
    /\ Loop py net candidates s v t.
Proof.
  induction candidates as [|c rest IH]; intros s.
  - exists (mkVerdict false Low None (reasons s)), [], s.
    repeat split; [now rewrite app_nil_r | constructor].
  - rewrite for_candidates_unfold.
    destruct (net (history s) c) as [r|e] eqn:Hfetch.
    + pose proof (turn_fetched c s r Hfetch) as Hturn. cbv zeta in Hturn.
      destruct (decision r _) as [tier|] eqn:Hd.
      * destruct Hturn as [rs ->]. do 3 eexists. repeat split.
        -- cbn [history]. now rewrite <- app_assoc.
        -- now apply Loop_decided.
      * destruct Hturn as [_ ->].
        destruct (IH (mkState (history s ++ [mkCall Probe c (Return r)]
                                 ++ [mkCall CartCheck (urljoin py (url r) "/cart.js")
                                       (net (history s ++ [mkCall Probe c (Return r)])
                                            (urljoin py (url r) "/cart.js"))])
                              (reasons s ++ [no_signal_note (url r)])))
          as (v & t & s' & Hrun & Hhist & Hloop).
        rewrite app_assoc in Hrun. rewrite Hrun.
        exists v, (mkCall Probe c (Return r)
                   :: mkCall CartCheck (urljoin py (url r) "/cart.js")
                        (net (history s ++ [mkCall Probe c (Return r)])
                             (urljoin py (url r) "/cart.js")) :: t), s'.
        repeat split.
        -- rewrite Hhist. cbn [history]. now rewrite <- !app_assoc.
        -- now apply Loop_no_signal.
    + rewrite (turn_unreachable c s e Hfetch).
      destruct (IH (mkState (history s ++ [mkCall Probe c (Raise e)])
                            (reasons s ++ [failure_note c e])))
        as (v & t & s' & Hrun & Hhist & Hloop).
      rewrite Hrun. exists v, (mkCall Probe c (Raise e) :: t), s'.
      repeat split.
      -- rewrite Hhist. cbn [history]. now rewrite <- app_assoc.
      -- now apply Loop_unreachable.
Qed.

(** A run that returns went through the loop from the initial state. *)
Lemma run_returns (input : string) (candidates : list string) :
  normalize_candidates py input = Return candidates ->
  exists v t, run py net input = (Return v, t) /\ Loop py net candidates init v t.
Proof.
  intros Hn. unfold run, is_shopify_site, bind, lift. rewrite Hn.
  destruct (for_candidates_Loop candidates init) as (v & t & s' & -> & Hh & Hl).
  exists v, t. split; [now rewrite Hh | assumption].
Qed.

Lemma run_inv (input : string) (v : Verdict) (h : list Call) :
  run py net input = (Return v, h) ->
  exists candidates,
    normalize_candidates py input = Return candidates /\ Loop py net candidates init v h.
Proof.
  intros Hrun. destruct (normalize_candidates py input) as [cands|e] eqn:Hn.
  - exists cands. split; [reflexivity|].
    destruct (run_returns input cands Hn) as (v' & t & Hrun' & Hl).
    rewrite Hrun in Hrun'. now injection Hrun' as -> ->.
  - unfold run, is_shopify_site, bind, lift in Hrun. rewrite Hn in Hrun. discriminate.
Qed.

Lemma run_raises (input : string) (e : string) :
  normalize_candidates py input = Raise e ->
  run py net input = (Raise e, []).
Proof.
  intros Hn. unfold run, is_shopify_site, bind, lift. now rewrite Hn.
Qed.

End EngineFacts.

(** ** Facts about the loop *)

Section LoopFacts.

Variable py : PyRuntime.
Variable net : Network.

Local Open Scope list_scope.

Lemma or_else_empty (t : string) : Str.or_else t "" = t.
Proof. now destruct t. Qed.

Lemma nonempty_true {A} (l : list A) : l <> [] -> nonempty l = true.
Proof. destruct l; [congruence | reflexivity]. Qed.

Lemma nonempty_false {A} (l : list A) : l = [] -> nonempty l = false.
Proof. now intros ->. Qed.

Lemma decision_tier (r : Response) (ok : bool) (tier : Confidence) :
  decision r ok = Some tier -> tier = High \/ tier = Medium.
Proof.
  unfold decision.
  destruct (nonempty (shopify_headers_of r)), ok,
    (nonempty (shopify_cookies_of r)),
    (nonempty (check_body_markers (Str.or_else (text r) "")));
    simpl; intros [= <-]; auto.
Qed.

(** A probe that is answered is followed at once by its auxiliary check. *)
Lemma Loop_probed (candidates : list string) (s : State) (v : Verdict) (t : list Call) :
  Loop py net candidates s v t ->
  forall c r,
    In (mkCall Probe c (Return r)) t ->
    exists h1 h2 u out,
      t = h1 ++ mkCall Probe c (Return r) :: mkCall CartCheck u out :: h2.
Proof.
  induction 1 as [s | c0 rest s e v t Hf Hl IH
                  | c0 rest s r0 u0 out0 tier Hf Hu Ho Hd
                  | c0 rest s r0 u0 out0 v t Hf Hu Ho Hd Hl IH];
    intros c r Hin; simpl in Hin.
  - contradiction.
  - destruct Hin as [Heq|Hin]; [discriminate|].
    destruct (IH _ _ Hin) as (h1 & h2 & u & out & ->).
    now exists (mkCall Probe c0 (Raise e) :: h1), h2, u, out.
  - destruct Hin as [Heq|[Heq|[]]]; [|discriminate].
    injection Heq as <- <-. now exists [], [], u0, out0.
  - destruct Hin as [Heq|[Heq|Hin]]; [|discriminate|].
    + injection Heq as <- <-. now exists [], t, u0, out0.
    + destruct (IH _ _ Hin) as (h1 & h2 & u & out & ->).
      now exists (mkCall Probe c0 (Return r0) :: mkCall CartCheck u0 out0 :: h1), h2, u, out.
Qed.

(** A probe and an auxiliary check that decide are the last calls of
    the run, and the verdict is the one they lead to. *)
Lemma Loop_adjacent (candidates : list string) (s : State) (v : Verdict) (t : list Call) :
  Loop py net candidates s v t ->
  forall h1 h2 c r u out tier,
    t = h1 ++ mkCall Probe c (Return r) :: mkCall CartCheck u out :: h2 ->
    decision r (fst (cart_result u out)) = Some tier ->
    exists pre,
      v = mkVerdict true tier (Some (url r))
            (pre ++ signal_notes r ++ cart_notes r (cart_result u out)).
Proof.
  induction 1 as [s | c0 rest s e v t Hf Hl IH
                  | c0 rest s r0 u0 out0 tier0 Hf Hu Ho Hd
                  | c0 rest s r0 u0 out0 v t Hf Hu Ho Hd Hl IH];
    intros h1 h2 c r u out tier Ht Hdec.
  - destruct h1; discriminate.
  - destruct h1 as [|x h1]; [discriminate|].
    injection Ht as _ Ht. now apply (IH _ _ _ _ _ _ _ Ht).
  - destruct h1 as [|x [|y h1]].
    + injection Ht as <- <- <- <- _. rewrite Hd in Hdec. injection Hdec as <-.
      now exists (reasons s).
    + discriminate.
    + injection Ht as _ _ Ht. destruct h1; discriminate.
  - destruct h1 as [|x [|y h1]].
    + injection Ht as <- <- <- <- _. congruence.
    + discriminate.
    + injection Ht as _ _ Ht. now apply (IH _ _ _ _ _ _ _ Ht).
Qed.

(** When no probe is answered, every candidate is tried once and leaves
    its failure note. *)
Lemma Loop_all_unreachable (candidates : list string) (s : State) (v : Verdict)
  (t : list Call) :
  Loop py net candidates s v t ->
  (forall call, In call t -> purpose call = Probe -> exists e, outcome call = Raise e) ->
  exists notes,
    v = mkVerdict false Low None (reasons s ++ notes)
    /\ map target t = candidates
    /\ Forall2 (fun call note =>
                  purpose call = Probe
                  /\ exists e, outcome call = Raise e
                               /\ note = failure_note (target call) e) t notes.
Proof.
  induction 1 as [s | c0 rest s e v t Hf Hl IH
                  | c0 rest s r0 u0 out0 tier Hf Hu Ho Hd
                  | c0 rest s r0 u0 out0 v t Hf Hu Ho Hd Hl IH];
    intros Hall.
  - exists []. rewrite app_nil_r. repeat split. constructor.
  - destruct IH as (notes & -> & Ht & Hn).
    { intros call Hin. apply Hall. now right. }
    exists (failure_note c0 e :: notes). cbn [reasons]. rewrite <- app_assoc.
    repeat split; [simpl; now rewrite Ht|].
    constructor; [|assumption]. split; [reflexivity|]. now exists e.
  - destruct (Hall (mkCall Probe c0 (Return r0))) as [e He];
      [now left | reflexivity | discriminate].
  - destruct (Hall (mkCall Probe c0 (Return r0))) as [e He];
      [now left | reflexivity | discriminate].
Qed.

Lemma Loop_consistent (candidates : list string) (s : State) (v : Verdict)
  (t : list Call) :
  Loop py net candidates s v t ->
  (isShopify v = true /\ resolvedUrl v <> None
   /\ (confidence v = High \/ confidence v = Medium))
  \/ (isShopify v = false /\ resolvedUrl v = None /\ confidence v = Low).
Proof.
  induction 1 as [s | c0 rest s e v t Hf Hl IH
                  | c0 rest s r0 u0 out0 tier Hf Hu Ho Hd
                  | c0 rest s r0 u0 out0 v t Hf Hu Ho Hd Hl IH].
  - right. now repeat split.
  - assumption.
  - left. cbn. repeat split; [discriminate | now apply decision_tier in Hd].
  - assumption.
Qed.

Lemma cart_result_ok (u : string) (out : result Response) :
  fst (cart_result u out) = true -> snd (cart_result u out) = cart_ok_message u.
Proof.
  unfold cart_result. destruct out as [r|e]; [|discriminate].
  destruct (_ && _); [|discriminate].
  destruct (json r) as [data|e]; [|discriminate].
  destruct (_ && _); [reflexivity | discriminate].
Qed.

(** A response with a vendor header ends the run: the evidence is the
    notes left by the candidates before it (one failure note or one
    no-signal note each), the header note, and the message of the auxiliary
    check when it was positive. *)
Lemma Loop_header_evidence (candidates : list string) (s : State) (v : Verdict)
  (t : list Call) :
  Loop py net candidates s v t ->
  forall c r,
    In (mkCall Probe c (Return r)) t ->
    shopify_headers_of r <> [] ->
    exists notes h1 u out,
      t = h1 ++ [mkCall Probe c (Return r); mkCall CartCheck u out]
      /\ Forall (fun note => (exists c' e, note = failure_note c' e)
                             \/ (exists u', note = no_signal_note u')) notes
      /\ v = mkVerdict true High (Some (url r))
               (reasons s ++ notes
                ++ headers_note (shopify_headers_of r)
                   :: (if fst (cart_result u out) then [cart_ok_message u] else [])).
Proof.
  induction 1 as [s | c0 rest s e v t Hf Hl IH
                  | c0 rest s r0 u0 out0 tier Hf Hu Ho Hd
                  | c0 rest s r0 u0 out0 v t Hf Hu Ho Hd Hl IH];
    intros c r Hin Hh; simpl in Hin.
  - contradiction.
  - destruct Hin as [Heq|Hin]; [discriminate|].
    destruct (IH _ _ Hin Hh) as (notes & h1 & u & out & -> & Hn & ->).
    exists (failure_note c0 e :: notes), (mkCall Probe c0 (Raise e) :: h1), u, out.
    cbn [reasons]. rewrite <- app_assoc. repeat split.
    constructor; [left; now exists c0, e | assumption].
  - destruct Hin as [Heq|[Heq|[]]]; [|discriminate].
    injection Heq as <- <-.
    exists [], [], u0, out0. split; [reflexivity|]. split; [constructor|].
    unfold decision in Hd. rewrite (nonempty_true _ Hh) in Hd. injection Hd as <-.
    unfold signal_notes, cart_notes. rewrite (nonempty_true _ Hh). cbn [andb app].
    destruct (fst (cart_result u0 out0)) eqn:Hok; cbn [negb];
      [now rewrite (cart_result_ok _ _ Hok) | reflexivity].
  - destruct Hin as [Heq|[Heq|Hin]]; [|discriminate|].
    + injection Heq as <- <-. unfold decision in Hd.
      rewrite (nonempty_true _ Hh) in Hd. discriminate.
    + destruct (IH _ _ Hin Hh) as (notes & h1 & u & out & -> & Hn & ->).
      exists (no_signal_note (url r0) :: notes),
        (mkCall Probe c0 (Return r0) :: mkCall CartCheck u0 out0 :: h1), u, out.
      cbn [reasons]. rewrite <- app_assoc. repeat split.
      constructor; [right; now exists (url r0) | assumption].
Qed.

End LoopFacts.

(** * The claims *)

Local Open Scope list_scope.

Lemma dict_has_In (key : string) (items : list (string * Json)) :
  In key (map fst items) -> dict_has key (JDict items) = true.
Proof.
  intros H. apply in_map_iff in H. destruct H as (kv & <- & Hin).
  simpl. apply existsb_exists. exists kv. split; [assumption | apply String.eqb_refl].
Qed.

Lemma decision_of_notes (r : Response) (ok : bool) :
  signal_notes r <> [] -> exists tier, decision r ok = Some tier.
Proof.
  unfold signal_notes, decision.
  destruct (nonempty (shopify_headers_of r)), ok,
    (nonempty (shopify_cookies_of r)),
    (nonempty (check_body_markers (Str.or_else (text r) "")));
    simpl; intros H; try congruence; eauto.
Qed.



(** C2: when a probed candidate has no [X-Shopify-] header and its
    auxiliary [/cart.js] request is answered with status 200, a JSON
    content type and a body that decodes to an object with one of the keys
    [items], [token], [attributes], the run returns isShopify = true with
    confidence high and the address the candidate resolved to, whatever
    the cookie and body checks found. *)
Theorem C2_cart_json_decides_high
  (py : PyRuntime) (net : Network) (input : string)
  (v : Verdict) (h h1 h2 : list Call) (c u : string) (r rc : Response)
  (items : list (string * Json)) (key : string) :
  run py net input = (Return v, h) ->
  h = h1 ++ mkCall Probe c (Return r) :: mkCall CartCheck u (Return rc) :: h2 ->
  shopify_headers_of r = [] ->
  status_code rc = 200%Z ->
  Str.startswith (Str.lower (headers_get (headers rc) "Content-Type" "")) "application/json"
  = true ->
  json rc = Return (JDict items) ->
  In key ["items"; "token"; "attributes"]%string ->
  In key (map fst items) ->
  isShopify v = true /\ confidence v = High /\ resolvedUrl v = Some (url r).
Proof.
  intros Hrun Heq Hh Hst Hct Hjs Hkey Hin.
  destruct (run_inv py net input v h Hrun) as (cands & _ & Hloop).
  assert (Hok : fst (cart_result u (Return rc)) = true).
  { assert (Hany : dict_has "items" (JDict items) || dict_has "token" (JDict items)
                   || dict_has "attributes" (JDict items) = true).
    { apply dict_has_In in Hin.
      destruct Hkey as [<-|[<-|[<-|[]]]]; rewrite Hin;
        rewrite ?orb_true_r; reflexivity. }
    unfold cart_result. rewrite Hst, Hct, Hjs, Z.eqb_refl. cbn [andb is_dict].
    now rewrite Hany. }
  destruct (Loop_adjacent py net cands init v h Hloop h1 h2 c r u (Return rc) High Heq)
    as [pre ->].
  - unfold decision. now rewrite (nonempty_false _ Hh), Hok.
  - now repeat split.
Qed.

Lemma C2_witness :
  exists v h,
    run Ref.py_added_first Scenario.net_headless "shop.example" = (Return v, h)
    /\ isShopify v = true /\ confidence v = High
    /\ resolvedUrl v = Some "https://shop.example/".
Proof.
  do 2 eexists. split; [vm_compute; reflexivity|].
  eapply (C2_cart_json_decides_high Ref.py_added_first Scenario.net_headless
           "shop.example" _ _ [] [] Scenario.shop Scenario.shop_cart
           Scenario.plain_page (Ref.cart_json Scenario.shop_cart)
           [("token", JStr "abc"); ("items", JList [])] "token").
  - vm_compute. reflexivity.
  - reflexivity.
  - reflexivity.
  - reflexivity.
  - reflexivity.
  - reflexivity.
  - right. left. reflexivity.
  - left. reflexivity.
Defined.

(** C3, as worded, fails: the store front answers with a vendor header, a
    vendor cookie and a vendor marker, and the run returns after the
    header check; the cookie and the marker are never looked at, and the
    evidence holds the header note alone. *)
Lemma C3_counterexample :
  ~ every_check_reported Ref.py_added_first Scenario.net_store "shop.example".
Proof.
  intros H.
  eassert (Hrun : run Ref.py_added_first Scenario.net_store "shop.example"
                  = (Return _, _)) by (vm_compute; reflexivity).
  destruct (H _ _ Scenario.shop Scenario.store_page Hrun) as (_ & Hc & _).
  - left. reflexivity.
  - assert (Hne : shopify_cookies_of Scenario.store_page <> [])
      by (vm_compute; discriminate).
    specialize (Hc Hne). vm_compute in Hc.
    destruct Hc as [Heq|[]]. discriminate Heq.
Qed.

Lemma cookies_note_distinct (l : list string) :
  (forall c e, cookies_note l <> failure_note c e)
  /\ (forall u, cookies_note l <> no_signal_note u)
  /\ (forall hs, cookies_note l <> headers_note hs)
  /\ (forall u, cookies_note l <> cart_ok_message u).
Proof.
  unfold cookies_note, failure_note, no_signal_note, headers_note, cart_ok_message.
  repeat split; intros; cbn [String.append]; discriminate.
Qed.

Lemma markers_note_distinct (l : list string) :
  (forall c e, markers_note l <> failure_note c e)
  /\ (forall u, markers_note l <> no_signal_note u)
  /\ (forall hs, markers_note l <> headers_note hs)
  /\ (forall u, markers_note l <> cart_ok_message u).
Proof.
  unfold markers_note, failure_note, no_signal_note, headers_note, cart_ok_message.
  repeat split; intros; cbn [String.append]; discriminate.
Qed.

(** C3 (amended): on every probed response the header check is evaluated
    and its finding noted.  On every probed response without a vendor
    header the cookie check and the body-marker check are both evaluated,
    neither depending on what the other found: a qualifying cookie is
    noted whether or not a marker matched, and a matching marker is noted
    whether or not a cookie qualified.  A response with a vendor header
    decides the run at once, before the cookie and body-marker checks: its
    probe and the auxiliary check that follows are the last calls of the
    run, the verdict is positive with high confidence and its address, and
    the evidence holds neither a cookie note nor a marker note for it,
    whatever cookies and markers it carries. *)
Theorem C3_checks_reported_unless_header_decides
  (py : PyRuntime) (net : Network) (input : string)
  (v : Verdict) (h : list Call) (c : string) (r : Response) :
  run py net input = (Return v, h) ->
  In (mkCall Probe c (Return r)) h ->
  (shopify_headers_of r <> [] ->
   In (headers_note (shopify_headers_of r)) (evidence v)
   /\ (exists h1 u out,
         h = h1 ++ [mkCall Probe c (Return r); mkCall CartCheck u out])
   /\ isShopify v = true /\ confidence v = High /\ resolvedUrl v = Some (url r)
   /\ ~ In (cookies_note (shopify_cookies_of r)) (evidence v)
   /\ ~ In (markers_note (check_body_markers (text r))) (evidence v))
  /\ (shopify_headers_of r = [] ->
      (shopify_cookies_of r <> [] ->
       In (cookies_note (shopify_cookies_of r)) (evidence v))
      /\ (check_body_markers (text r) <> [] ->
          In (markers_note (check_body_markers (text r))) (evidence v))).
Proof.
  intros Hrun Hin.
  destruct (run_inv py net input v h Hrun) as (cands & _ & Hloop).
  split.
  - intros Hh.
    destruct (Loop_header_evidence py net cands init v h Hloop c r Hin Hh)
      as (notes & h1 & u & out & -> & Hn & ->).
    cbn [evidence isShopify confidence resolvedUrl reasons init app].
    assert (Hfresh : forall note,
               (forall c' e, note <> failure_note c' e) ->
               (forall u', note <> no_signal_note u') ->
               (forall hs, note <> headers_note hs) ->
               (forall u', note <> cart_ok_message u') ->
               ~ In note
                   (notes ++ headers_note (shopify_headers_of r)
                          :: (if fst (cart_result u out)
                              then [cart_ok_message u] else []))).
    { intros note H1 H2 H3 H4 Hnote. apply in_app_or in Hnote.
      destruct Hnote as [Hnote|[Hnote|Hnote]].
      - rewrite Forall_forall in Hn.
        destruct (Hn _ Hnote) as [(c' & e & E)|(u' & E)];
          [now apply (H1 c' e) | now apply (H2 u')].
      - now apply (H3 (shopify_headers_of r)).
      - destruct (fst (cart_result u out)); [|contradiction].
        destruct Hnote as [Hnote|[]]. now apply (H4 u). }
    split; [apply in_or_app; right; now left|].
    split; [now exists h1, u, out|].
    repeat split.
    + destruct (cookies_note_distinct (shopify_cookies_of r)) as (H1 & H2 & H3 & H4).
      now apply Hfresh.
    + destruct (markers_note_distinct (check_body_markers (text r)))
        as (H1 & H2 & H3 & H4).
      now apply Hfresh.
  - destruct (Loop_probed py net cands init v h Hloop c r Hin)
      as (h1 & h2 & u & out & Heq).
    assert (Hnotes : forall note, In note (signal_notes r) -> In note (evidence v)).
    { intros note Hnote.
      destruct (decision_of_notes r (fst (cart_result u out))) as [tier Hd].
      - intros E. now rewrite E in Hnote.
      - destruct (Loop_adjacent py net cands init v h Hloop h1 h2 c r u out tier Heq Hd)
          as [pre ->].
        cbn [evidence]. apply in_or_app. right. apply in_or_app. now left. }
    unfold signal_notes in Hnotes. rewrite or_else_empty in Hnotes.
    intros Hh; split; intros Hs.
    + rewrite (nonempty_false _ Hh), (nonempty_true _ Hs) in Hnotes.
      apply Hnotes. now left.
    + rewrite (nonempty_false _ Hh), (nonempty_true _ Hs) in Hnotes.
      apply Hnotes. apply in_or_app. right. now left.
Qed.

Lemma C3_witness :
  exists v h,
    run Ref.py_added_first Scenario.net_cached "shop.example" = (Return v, h)
    /\ In "Знайдено Shopify-кукі: _shopify_y"%string (evidence v)
    /\ In "У розмітці є маркери: cdn\.shopify\.com"%string (evidence v).
Proof.
  do 2 eexists. split; [vm_compute; reflexivity|].
  eassert (Hrun : run Ref.py_added_first Scenario.net_cached "shop.example"
                  = (Return _, _)) by (vm_compute; reflexivity).
  destruct (C3_checks_reported_unless_header_decides Ref.py_added_first
              Scenario.net_cached "shop.example" _ _ Scenario.shop Scenario.cached_page
              Hrun)
    as (_ & Hrest).
  - left. reflexivity.
  - destruct (Hrest eq_refl) as (Hc & Hm). split.
    + apply Hc. vm_compute. discriminate.
    + apply Hm. vm_compute. discriminate.
Defined.

(** C4 fails on the code: the two host variants are the elements of a
    [set], and the URLs follow the order in which that set is iterated.
    When the set yields the element added last first, the input
    [example.com] gives the [www.] counterpart before the host derived
    from the input; when it yields them as added, the host comes first.
    For each host the [https] URL does precede the [http] URL. *)
Theorem C4_host_order_follows_set_iteration :
  normalize_candidates Ref.py_added_last "example.com"
  = Return [ "https://www.example.com/"; "http://www.example.com/";
             "https://example.com/"; "http://example.com/" ]%string
  /\ normalize_candidates Ref.py_added_first "example.com"
     = Return [ "https://example.com/"; "http://example.com/";
                "https://www.example.com/"; "http://www.example.com/" ]%string.
Proof. split; vm_compute; reflexivity. Qed.






(** C7: when the probe of every candidate fails at the network level,
    the run returns (no exception reaches the caller) the verdict
    isShopify = false with confidence low and no resolved address; every
    candidate was attempted once, in order, and the evidence holds
    exactly one failure note for each attempt. *)
Theorem C7_all_probes_fail
  (py : PyRuntime) (net : Network) (input : string) (candidates : list string)
  (res : result Verdict) (h : list Call) :
  normalize_candidates py input = Return candidates ->
  run py net input = (res, h) ->
  (forall call, In call h -> purpose call = Probe -> exists e, outcome call = Raise e) ->
  exists notes,
    res = Return (mkVerdict false Low None notes)
    /\ map target h = candidates
    /\ Forall2 (fun call note =>
                  purpose call = Probe
                  /\ exists e, outcome call = Raise e
                               /\ note = failure_note (target call) e) h notes.
Proof.
  intros Hn Hrun Hall.
  destruct (run_returns py net input candidates Hn) as (v & t & Hrun' & Hloop).
  rewrite Hrun in Hrun'. injection Hrun' as -> ->.
  destruct (Loop_all_unreachable py net candidates init v t Hloop Hall)
    as (notes & -> & Ht & Hf).
  now exists notes.
Qed.

Lemma C7_witness :
  exists notes,
    fst (run Ref.py_added_first Ref.net_down "example.com")
    = Return (mkVerdict false Low None notes)
    /\ length notes = 4%nat.
Proof.
  destruct (C7_all_probes_fail Ref.py_added_first Ref.net_down "example.com"
              [ "https://example.com/"; "http://example.com/";
                "https://www.example.com/"; "http://www.example.com/" ]%string
              (fst (run Ref.py_added_first Ref.net_down "example.com"))
              (snd (run Ref.py_added_first Ref.net_down "example.com")))
    as (notes & Hres & Hmap & Hf).
  - vm_compute. reflexivity.
  - vm_compute. reflexivity.
  - vm_compute. intros call [<-|[<-|[<-|[<-|[]]]]] _; eexists; reflexivity.
  - exists notes. split; [assumption|].
    apply Forall2_length in Hf. rewrite <- Hf. reflexivity.
Defined.

(** C8: for an input that is empty or made of white-space characters
    only (any of the characters [str.strip()] removes, ASCII or not), the
    normalizer returns no candidate, and the run returns isShopify = false
    with confidence low, no resolved address and no evidence, without a
    single network call. *)
Theorem C8_blank_input
  (py : PyRuntime) (net : Network) (raw : string) (ws : list string) :
  Forall (fun ch => In ch Str.WHITESPACE) ws ->
  raw = String.concat "" ws ->
  normalize_candidates py raw = Return []
  /\ run py net raw = (Return (mkVerdict false Low None []), []).
Proof.
  intros H ->.
  assert (Hn : normalize_candidates py (String.concat "" ws) = Return []).
  { unfold normalize_candidates. now rewrite (strip_whitespace ws H). }
  split; [assumption|].
  unfold run, is_shopify_site, bind, lift. rewrite Hn. reflexivity.
Qed.

(** A space, a no-break space (U+00A0), a tab and an em space (U+2003). *)
Lemma C8_witness :
  normalize_candidates Ref.py_added_first
    (String.concat "" [ " "%string; Str.of_bytes [194; 160]; Str.of_bytes [9];
                        Str.of_bytes [226; 128; 131] ])
  = Return []
  /\ run Ref.py_added_first Scenario.net_store
       (String.concat "" [ " "%string; Str.of_bytes [194; 160]; Str.of_bytes [9];
                           Str.of_bytes [226; 128; 131] ])
     = (Return (mkVerdict false Low None []), []).
Proof.
  apply (C8_blank_input Ref.py_added_first Scenario.net_store _
           [ " "%string; Str.of_bytes [194; 160]; Str.of_bytes [9];
             Str.of_bytes [226; 128; 131] ]).
  - repeat (apply Forall_cons; [apply in_whitespace; reflexivity|]).
    apply Forall_nil.
  - reflexivity.
Defined.

(** C9: whatever the input, the list the normalizer returns has no
    duplicate and at most four entries. *)
Theorem C9_no_duplicates_at_most_four
  (py : PyRuntime) (raw : string) (l : list string) :
  normalize_candidates py raw = Return l ->
  NoDup l /\ (length l <= 4)%nat.
Proof.
  intros H. destruct (normalize_candidates_cases py raw l H) as [->|(host & _ & ->)].
  - split; [constructor | simpl; lia].
  - destruct (dedup_spec (flat_map host_urls (set_iter py (base_hosts_of host))) []
                (NoDup_nil _)) as (Hnd & Hlen & _).
    split; [assumption|].
    rewrite flat_map_host_urls_length in Hlen.
    rewrite (Permutation_length (set_iter_perm py _ (base_hosts_NoDup host))) in Hlen.
    pose proof (base_hosts_length host). simpl in Hlen. lia.
Qed.

Lemma C9_witness :
  exists l,
    normalize_candidates Ref.py_added_first "example.com" = Return l
    /\ NoDup l /\ (length l <= 4)%nat.
Proof.
  eexists. split; [vm_compute; reflexivity|].
  apply (C9_no_duplicates_at_most_four Ref.py_added_first "example.com").
  vm_compute. reflexivity.
Defined.

(** C10: the verdict a run returns is consistent: isShopify is true
    exactly when a resolved address is present, and exactly when the
    confidence is high or medium; a negative verdict has confidence low
    and no resolved address. *)
Theorem C10_verdict_consistent
  (py : PyRuntime) (net : Network) (input : string) (v : Verdict) (h : list Call) :
  run py net input = (Return v, h) ->
  (isShopify v = true <-> resolvedUrl v <> None)
  /\ (isShopify v = true <-> (confidence v = High \/ confidence v = Medium))
  /\ (isShopify v = false -> confidence v = Low /\ resolvedUrl v = None).
Proof.
  intros Hrun.
  destruct (run_inv py net input v h Hrun) as (cands & _ & Hloop).
  destruct (Loop_consistent py net cands init v h Hloop)
    as [(Hs & Hu & Hc)|(Hs & Hu & Hc)]; rewrite Hs.
  - repeat split; auto; discriminate.
  - rewrite Hu, Hc. repeat split; try discriminate; try congruence.
    intros [E|E]; discriminate E.
Qed.

Lemma C10_witness :
  exists v h,
    run Ref.py_added_first Scenario.net_cached "shop.example" = (Return v, h)
    /\ (isShopify v = true <-> resolvedUrl v <> None)
    /\ (isShopify v = true <-> (confidence v = High \/ confidence v = Medium))
    /\ (isShopify v = false -> confidence v = Low /\ resolvedUrl v = None).
Proof.
  do 2 eexists. split; [vm_compute; reflexivity|].
  eapply (C10_verdict_consistent Ref.py_added_first Scenario.net_cached "shop.example").
  vm_compute. reflexivity.
Defined.


(** * Further properties of the code *)

(** ** Strings *)

Local Open Scope string_scope.





Lemma replace_first_prefix (old new s : string) :
  String.prefix old s = true ->
  Str.replace_first old new s = new ++ Str.drop (String.length old) s.
Proof.
  intros H. destruct s as [|c s].
  - destruct old; [reflexivity | discriminate].
  - change (Str.replace_first old new (String c s))
      with (if String.prefix old (String c s)
            then new ++ Str.drop (String.length old) (String c s)
            else String c (Str.replace_first old new s)).
    now rewrite H.
Qed.






(** ** The normalizer *)

Lemma set_add_two (a b : string) :
  a <> b -> set_add b (set_add a []) = [a; b].
Proof.
  intros H. unfold set_add at 2. cbn [set_mem existsb app].
  unfold set_add, set_mem. cbn [existsb]. rewrite orb_false_r.
  destruct (String.eqb_spec b a); [congruence | reflexivity].
Qed.

Lemma base_hosts_www (host : string) :
  Str.startswith host "www." = true ->
  base_hosts_of host = [host; Str.drop 4 host] /\ host = "www." ++ Str.drop 4 host.
Proof.
  intros H. unfold Str.startswith in H.
  pose proof (prefix_inv "www." host H) as Hh.
  change (String.length "www.") with 4%nat in Hh.
  split; [|assumption].
  unfold base_hosts_of, Str.startswith. rewrite H. cbn [negb].
  rewrite (replace_first_prefix "www." "" host H).
  change (String.length "www.") with 4%nat.
  change ("" ++ Str.drop 4 host) with (Str.drop 4 host).
  apply set_add_two. intros E.
  apply (f_equal String.length) in Hh.
  rewrite <- E, length_append in Hh. simpl in Hh. lia.
Qed.

Lemma base_hosts_bare (host : string) :
  Str.startswith host "www." = false ->
  base_hosts_of host = [host; "www." ++ host].
Proof.
  intros H. unfold base_hosts_of. rewrite H. cbn [negb].
  apply set_add_two. intros E.
  apply (f_equal String.length) in E.
  rewrite length_append in E. simpl in E. lia.
Qed.

Lemma normalize_candidates_host (py : PyRuntime) (raw : string) (l : list string) :
  normalize_candidates py raw = Return l ->
  (l = [] /\ Str.strip raw = "")
  \/ exists p,
      Str.strip raw <> ""
      /\ urlparse py (if Re.match_scheme (Str.strip raw) then Str.strip raw
                      else "https://" ++ Str.strip raw) = Return p
      /\ l = (if Str.is_empty (Str.strip_chars "/" (Str.or_else (netloc p) (path p)))
              then []
              else dedup (flat_map host_urls
                            (set_iter py
                               (base_hosts_of
                                  (Str.strip_chars "/"
                                     (Str.or_else (netloc p) (path p)))))) [] []).
Proof.
  unfold normalize_candidates.
  destruct (Str.strip raw) as [|c t] eqn:E; cbn [Str.is_empty].
  - intros [= <-]. now left.
  - destruct (Re.match_scheme (String c t)); cbn [negb];
      (destruct (urlparse py _) as [p|e] eqn:Hp; cbn [rbind]; [|discriminate]);
      intros H; right; exists p; (split; [discriminate|]); (split; [reflexivity|]);
      destruct (Str.is_empty _); now injection H as <-.
Qed.

(** X1: the normalizer returns nothing when the stripped input is empty
    or when no host is left of it; otherwise it returns exactly four URLs:
    the [https] and then the [http] URL of one host variant, followed by
    the [https] and then the [http] URL of the other.  The host is the
    [netloc] that [urlparse] finds in the stripped input (completed with
    [https://] when it has no scheme), or its [path] when the [netloc] is
    empty, without the slashes around it; the two variants are that host
    and its counterpart: the host with [www.] put in front when it does
    not start with [www.], the host without its leading [www.] when it
    does. *)
Theorem normalize_candidates_four_urls
  (py : PyRuntime) (raw : string) (l : list string) :
  normalize_candidates py raw = Return l ->
  (l = [] /\ Str.strip raw = "")
  \/ exists p host other,
      urlparse py (if Re.match_scheme (Str.strip raw) then Str.strip raw
                   else "https://" ++ Str.strip raw) = Return p
      /\ host = Str.strip_chars "/" (Str.or_else (netloc p) (path p))
      /\ other = (if Str.startswith host "www." then Str.drop 4 host
                  else "www." ++ host)
      /\ ((host = "" /\ l = [])
          \/ (host <> ""
              /\ (l = [ "https://" ++ host ++ "/"; "http://" ++ host ++ "/";
                        "https://" ++ other ++ "/"; "http://" ++ other ++ "/" ]
                  \/ l = [ "https://" ++ other ++ "/"; "http://" ++ other ++ "/";
                           "https://" ++ host ++ "/"; "http://" ++ host ++ "/" ]))).
Proof.
  intros H. destruct (normalize_candidates_host py raw l H) as [?|(p & _ & Hp & ->)];
    [now left | right].
  exists p, (Str.strip_chars "/" (Str.or_else (netloc p) (path p))),
    (if Str.startswith (Str.strip_chars "/" (Str.or_else (netloc p) (path p))) "www."
     then Str.drop 4 (Str.strip_chars "/" (Str.or_else (netloc p) (path p)))
     else "www." ++ Str.strip_chars "/" (Str.or_else (netloc p) (path p))).
  split; [assumption|]. split; [reflexivity|]. split; [reflexivity|].
  remember (Str.strip_chars "/" (Str.or_else (netloc p) (path p))) as host eqn:Eh.
  clear Eh. destruct (Str.is_empty host) eqn:Ee.
  { left. destruct host; [now split | discriminate]. }
  right. split; [intros ->; discriminate|].
  assert (Hnd : NoDup (flat_map host_urls (set_iter py (base_hosts_of host)))).
  { apply flat_map_host_urls_NoDup.
    eapply Permutation_NoDup; [apply Permutation_sym, set_iter_perm|];
      apply base_hosts_NoDup. }
  rewrite (dedup_id _ [] Hnd). cbn [app].
  pose proof (set_iter_perm py _ (base_hosts_NoDup host)) as Hperm.
  apply Permutation_sym in Hperm.
  destruct (Str.startswith host "www.") eqn:E.
  - rewrite (proj1 (base_hosts_www host E)) in *.
    apply Permutation_length_2_inv in Hperm. destruct Hperm as [->| ->]; simpl; auto.
  - rewrite (base_hosts_bare host E) in *.
    apply Permutation_length_2_inv in Hperm. destruct Hperm as [->| ->]; simpl; auto.
Qed.

Lemma normalize_candidates_four_urls_witness :
  exists l, normalize_candidates Ref.py_added_last "www.example.com" = Return l
            /\ length l = 4%nat.
Proof.
  eexists. split; [vm_compute; reflexivity|].
  destruct (normalize_candidates_four_urls Ref.py_added_last "www.example.com" _
              ltac:(vm_compute; reflexivity))
    as [[E _]|(p & host & other & _ & _ & _ & [[_ E]|[_ [E|E]]])];
    [discriminate E | discriminate E | reflexivity | reflexivity].
Defined.

(** X2: white space around the input is ignored: padding the input with
    white space on either side changes neither the candidates nor the run. *)
Theorem surrounding_whitespace_ignored
  (py : PyRuntime) (net : Network) (ws1 raw ws2 : string) :
  Forall (fun c => Str.isspace c = true) (list_ascii_of_string ws1) ->
  Forall (fun c => Str.isspace c = true) (list_ascii_of_string ws2) ->
  normalize_candidates py (ws1 ++ raw ++ ws2) = normalize_candidates py raw
  /\ run py net (ws1 ++ raw ++ ws2) = run py net raw.
Proof.
  intros H1 H2.
  assert (Hn : normalize_candidates py (ws1 ++ raw ++ ws2) = normalize_candidates py raw).
  { unfold normalize_candidates. now rewrite (strip_pad ws1 raw ws2 H1 H2). }
  split; [assumption|].
  unfold run, is_shopify_site, bind, lift. now rewrite Hn.
Qed.

Lemma surrounding_whitespace_ignored_witness :
  normalize_candidates Ref.py_added_first ("  " ++ "example.com" ++ " ")
  = normalize_candidates Ref.py_added_first "example.com"
  /\ run Ref.py_added_first Ref.net_down ("  " ++ "example.com" ++ " ")
     = run Ref.py_added_first Ref.net_down "example.com".
Proof.
  apply (surrounding_whitespace_ignored Ref.py_added_first Ref.net_down
           "  " "example.com" " "); simpl; repeat constructor.
Defined.

(** X3: [normalize_candidates] is called outside the [try] block, so an
    exception raised by [urlparse] on the input (completed with [https://]
    when it has no scheme) leaves [is_shopify_site] as it is, before any
    network call. *)
Theorem urlparse_error_escapes
  (py : PyRuntime) (net : Network) (raw e : string) :
  Str.strip raw <> "" ->
  urlparse py (if Re.match_scheme (Str.strip raw) then Str.strip raw
               else "https://" ++ Str.strip raw) = Raise e ->
  normalize_candidates py raw = Raise e /\ run py net raw = (Raise e, []).
Proof.
  intros Hne Hp.
  assert (Hn : normalize_candidates py raw = Raise e).
  { unfold normalize_candidates.
    destruct (Str.strip raw) as [|c t] eqn:E; [congruence|].
    simpl Str.is_empty. cbv iota.
    destruct (Re.match_scheme (String c t)); simpl negb; cbv iota; now rewrite Hp. }
  split; [assumption | now apply run_raises].
Qed.

Lemma urlparse_error_escapes_witness :
  run Ref.py_added_first Scenario.net_store "http://[shop.example"
  = (Raise "Invalid IPv6 URL", []).
Proof.
  apply (urlparse_error_escapes Ref.py_added_first Scenario.net_store
           "http://[shop.example" "Invalid IPv6 URL").
  - vm_compute. discriminate.
  - vm_compute. reflexivity.
Defined.

(** ** The loop *)

Section MoreLoopFacts.

Variable py : PyRuntime.
Variable net : Network.

Local Open Scope list_scope.

Lemma Loop_length (candidates : list string) (s : State) (v : Verdict) (t : list Call) :
  Loop py net candidates s v t ->
  (length t <= 2 * length candidates)%nat
  /\ (length (filter is_probe t) <= length candidates)%nat.
Proof.
  induction 1 as [s | c0 rest s e v t Hf Hl IH
                  | c0 rest s r0 u0 out0 tier Hf Hu Ho Hd
                  | c0 rest s r0 u0 out0 v t Hf Hu Ho Hd Hl IH]; simpl; lia.
Qed.

(** The probes follow the candidate list, and a negative verdict is only
    reached at its end. *)
Lemma Loop_probes (candidates : list string) (s : State) (v : Verdict) (t : list Call) :
  Loop py net candidates s v t ->
  exists rest,
    candidates = map target (filter is_probe t) ++ rest
    /\ (isShopify v = false -> rest = []).
Proof.
  induction 1 as [s | c0 rest s e v t Hf Hl IH
                  | c0 rest s r0 u0 out0 tier Hf Hu Ho Hd
                  | c0 rest s r0 u0 out0 v t Hf Hu Ho Hd Hl IH]; simpl.
  - now exists [].
  - destruct IH as (rest' & -> & Hneg). now exists rest'.
  - exists rest. split; [reflexivity | discriminate].
  - destruct IH as (rest' & -> & Hneg). now exists rest'.
Qed.

Lemma Loop_first_call (c : string) (rest : list string) (s : State) (v : Verdict)
  (t : list Call) :
  Loop py net (c :: rest) s v t ->
  exists t', t = mkCall Probe c (net (history s) c) :: t'.
Proof.
  inversion 1; subst; eexists; (rewrite H4 || rewrite H2); reflexivity.
Qed.

(** Whatever was in [reasons] stays in the evidence. *)
Lemma Loop_keeps_reasons (candidates : list string) (s : State) (v : Verdict)
  (t : list Call) :
  Loop py net candidates s v t ->
  exists added, evidence v = reasons s ++ added.
Proof.
  induction 1 as [s | c0 rest s e v t Hf Hl IH
                  | c0 rest s r0 u0 out0 tier Hf Hu Ho Hd
                  | c0 rest s r0 u0 out0 v t Hf Hu Ho Hd Hl IH]; cbn [evidence].
  - exists []. now rewrite app_nil_r.
  - destruct IH as [added ->]. cbn [reasons]. rewrite <- app_assoc. eauto.
  - eauto.
  - destruct IH as [added ->]. cbn [reasons]. rewrite <- app_assoc. eauto.
Qed.

Lemma Loop_failure_noted (candidates : list string) (s : State) (v : Verdict)
  (t : list Call) :
  Loop py net candidates s v t ->
  forall c e, In (mkCall Probe c (Raise e)) t -> In (failure_note c e) (evidence v).
Proof.
  induction 1 as [s | c0 rest s e0 v t Hf Hl IH
                  | c0 rest s r0 u0 out0 tier Hf Hu Ho Hd
                  | c0 rest s r0 u0 out0 v t Hf Hu Ho Hd Hl IH];
    intros c e Hin; simpl in Hin.
  - contradiction.
  - destruct Hin as [Heq|Hin]; [|now apply IH].
    injection Heq as <- <-.
    destruct (Loop_keeps_reasons _ _ _ _ Hl) as [added ->]. cbn [reasons].
    apply in_or_app. left. apply in_or_app. right. now left.
  - destruct Hin as [Heq|[Heq|[]]]; discriminate.
  - destruct Hin as [Heq|[Heq|Hin]]; [discriminate | discriminate | now apply IH].
Qed.

(** An answered probe is followed at once by the request for [/cart.js]
    on the address it resolved to. *)
Lemma Loop_probed_cart (candidates : list string) (s : State) (v : Verdict)
  (t : list Call) :
  Loop py net candidates s v t ->
  forall c r,
    In (mkCall Probe c (Return r)) t ->
    exists h1 h2 out,
      t = h1 ++ mkCall Probe c (Return r)
             :: mkCall CartCheck (urljoin py (url r) "/cart.js") out :: h2.
Proof.
  induction 1 as [s | c0 rest s e v t Hf Hl IH
                  | c0 rest s r0 u0 out0 tier Hf Hu Ho Hd
                  | c0 rest s r0 u0 out0 v t Hf Hu Ho Hd Hl IH];
    intros c r Hin; simpl in Hin.
  - contradiction.
  - destruct Hin as [Heq|Hin]; [discriminate|].
    destruct (IH _ _ Hin) as (h1 & h2 & out & ->).
    now exists (mkCall Probe c0 (Raise e) :: h1), h2, out.
  - destruct Hin as [Heq|[Heq|[]]]; [|discriminate].
    injection Heq as <- <-. subst u0. now exists [], [], out0.
  - destruct Hin as [Heq|[Heq|Hin]]; [|discriminate|].
    + injection Heq as <- <-. subst u0. now exists [], t, out0.
    + destruct (IH _ _ Hin) as (h1 & h2 & out & ->).
      now exists (mkCall Probe c0 (Return r0) :: mkCall CartCheck u0 out0 :: h1), h2, out.
Qed.

(** A request for [/cart.js] comes right after an answered probe. *)
Lemma Loop_cart_preceded (candidates : list string) (s : State) (v : Verdict)
  (t : list Call) :
  Loop py net candidates s v t ->
  forall h1 h2 u out,
    t = h1 ++ mkCall CartCheck u out :: h2 ->
    exists h0 c r,
      h1 = h0 ++ [mkCall Probe c (Return r)]
      /\ u = urljoin py (url r) "/cart.js".
Proof.
  induction 1 as [s | c0 rest s e v t Hf Hl IH
                  | c0 rest s r0 u0 out0 tier Hf Hu Ho Hd
                  | c0 rest s r0 u0 out0 v t Hf Hu Ho Hd Hl IH];
    intros h1 h2 u out Ht.
  - destruct h1; discriminate.
  - destruct h1 as [|x h1]; [discriminate|]. injection Ht as <- Ht.
    destruct (IH _ _ _ _ Ht) as (h0 & c & r & -> & ->).
    now exists (mkCall Probe c0 (Raise e) :: h0), c, r.
  - destruct h1 as [|x [|y h1]].
    + discriminate.
    + injection Ht as <- <- _ _. now exists [], c0, r0.
    + injection Ht as _ _ Ht. destruct h1; discriminate.
  - destruct h1 as [|x [|y h1]].
    + discriminate.
    + injection Ht as <- <- _ _. now exists [], c0, r0.
    + injection Ht as <- <- Ht.
      destruct (IH _ _ _ _ Ht) as (h0 & c & r & -> & ->).
      now exists (mkCall Probe c0 (Return r0) :: mkCall CartCheck u0 out0 :: h0), c, r.
Qed.

Lemma Loop_cart_positive (candidates : list string) (s : State) (v : Verdict)
  (t : list Call) :
  Loop py net candidates s v t ->
  forall u out,
    In (mkCall CartCheck u out) t ->
    fst (cart_result u out) = true ->
    isShopify v = true /\ confidence v = High.
Proof.
  induction 1 as [s | c0 rest s e v t Hf Hl IH
                  | c0 rest s r0 u0 out0 tier Hf Hu Ho Hd
                  | c0 rest s r0 u0 out0 v t Hf Hu Ho Hd Hl IH];
    intros u out Hin Hok; simpl in Hin.
  - contradiction.
  - destruct Hin as [Heq|Hin]; [discriminate | now apply (IH _ _ Hin)].
  - destruct Hin as [Heq|[Heq|[]]]; [discriminate|].
    injection Heq as <- <-. rewrite Hok in Hd. unfold decision in Hd.
    destruct (nonempty (shopify_headers_of r0)); injection Hd as <-; now split.
  - destruct Hin as [Heq|[Heq|Hin]]; [discriminate| |now apply (IH _ _ Hin)].
    injection Heq as <- <-. rewrite Hok in Hd. unfold decision in Hd.
    destruct (nonempty (shopify_headers_of r0)); discriminate.
Qed.

(** A positive verdict comes from the last two calls. *)
Lemma Loop_positive (candidates : list string) (s : State) (v : Verdict) (t : list Call) :
  Loop py net candidates s v t ->
  isShopify v = true ->
  exists h1 c r u out tier pre,
    t = h1 ++ [mkCall Probe c (Return r); mkCall CartCheck u out]
    /\ decision r (fst (cart_result u out)) = Some tier
    /\ v = mkVerdict true tier (Some (url r))
             (pre ++ signal_notes r ++ cart_notes r (cart_result u out)).
Proof.
  induction 1 as [s | c0 rest s e v t Hf Hl IH
                  | c0 rest s r0 u0 out0 tier Hf Hu Ho Hd
                  | c0 rest s r0 u0 out0 v t Hf Hu Ho Hd Hl IH]; intros Hpos.
  - discriminate.
  - destruct (IH Hpos) as (h1 & c & r & u & out & tier & pre & -> & Hd & ->).
    now exists (mkCall Probe c0 (Raise e) :: h1), c, r, u, out, tier, pre.
  - now exists [], c0, r0, u0, out0, tier, (reasons s).
  - destruct (IH Hpos) as (h1 & c & r & u & out & tier & pre & -> & Hd' & ->).
    now exists (mkCall Probe c0 (Return r0) :: mkCall CartCheck u0 out0 :: h1),
      c, r, u, out, tier, pre.
Qed.

(** After a negative verdict every candidate has left one note. *)
Lemma Loop_negative (candidates : list string) (s : State) (v : Verdict) (t : list Call) :
  Loop py net candidates s v t ->
  isShopify v = false ->
  exists notes,
    evidence v = reasons s ++ notes
    /\ Forall2 (fun c note =>
                  (exists e, note = failure_note c e)
                  \/ (exists r, note = no_signal_note (url r)
                                /\ shopify_headers_of r = []
                                /\ shopify_cookies_of r = []
                                /\ check_body_markers (text r) = []))
         candidates notes.
Proof.
  induction 1 as [s | c0 rest s e v t Hf Hl IH
                  | c0 rest s r0 u0 out0 tier Hf Hu Ho Hd
                  | c0 rest s r0 u0 out0 v t Hf Hu Ho Hd Hl IH]; intros Hneg.
  - exists []. cbn [evidence]. rewrite app_nil_r. split; [reflexivity | constructor].
  - destruct (IH Hneg) as (notes & -> & Hf2). cbn [reasons].
    exists (failure_note c0 e :: notes). rewrite <- app_assoc. split; [reflexivity|].
    constructor; [left; now exists e | assumption].
  - discriminate.
  - destruct (IH Hneg) as (notes & -> & Hf2). cbn [reasons].
    exists (no_signal_note (url r0) :: notes). rewrite <- app_assoc.
    split; [reflexivity|].
    constructor; [right; exists r0 | assumption].
    unfold decision in Hd. rewrite or_else_empty in Hd.
    destruct (shopify_headers_of r0), (shopify_cookies_of r0),
      (check_body_markers (text r0)), (fst (cart_result u0 out0));
      simpl in Hd; try discriminate; now repeat split.
Qed.

(** After a negative verdict the evidence holds one note for each probe,
    in order: the note of the failure when the probe raised, the no-signal
    note of its response otherwise. *)
Lemma Loop_negative_probes (candidates : list string) (s : State) (v : Verdict)
  (t : list Call) :
  Loop py net candidates s v t ->
  isShopify v = false ->
  exists notes,
    evidence v = reasons s ++ notes
    /\ Forall2 (fun call note =>
                  match outcome call with
                  | Raise e => note = failure_note (target call) e
                  | Return r =>
                      note = no_signal_note (url r)
                      /\ shopify_headers_of r = []
                      /\ shopify_cookies_of r = []
                      /\ check_body_markers (text r) = []
                  end)
         (filter is_probe t) notes.
Proof.
  induction 1 as [s | c0 rest s e v t Hf Hl IH
                  | c0 rest s r0 u0 out0 tier Hf Hu Ho Hd
                  | c0 rest s r0 u0 out0 v t Hf Hu Ho Hd Hl IH]; intros Hneg.
  - exists []. cbn [evidence]. rewrite app_nil_r. split; [reflexivity | constructor].
  - destruct (IH Hneg) as (notes & -> & Hf2). cbn [reasons].
    exists (failure_note c0 e :: notes). rewrite <- app_assoc. split; [reflexivity|].
    simpl. constructor; [reflexivity | assumption].
  - discriminate.
  - destruct (IH Hneg) as (notes & -> & Hf2). cbn [reasons].
    exists (no_signal_note (url r0) :: notes). rewrite <- app_assoc.
    split; [reflexivity|].
    simpl. constructor; [|assumption]. cbn [outcome].
    unfold decision in Hd. rewrite or_else_empty in Hd.
    destruct (shopify_headers_of r0), (shopify_cookies_of r0),
      (check_body_markers (text r0)), (fst (cart_result u0 out0));
      simpl in Hd; try discriminate; now repeat split.
Qed.

End MoreLoopFacts.

Local Open Scope list_scope.

Lemma normalize_candidates_length (py : PyRuntime) (raw : string) (l : list string) :
  normalize_candidates py raw = Return l -> (length l <= 4)%nat.
Proof.
  intros H. destruct (normalize_candidates_shape py raw l H) as [->|(host & _ & ->)].
  - simpl. lia.
  - rewrite flat_map_host_urls_length.
    rewrite (Permutation_length (set_iter_perm py _ (base_hosts_NoDup host))).
    pose proof (base_hosts_length host). lia.
Qed.

Lemma run_cases (py : PyRuntime) (net : Network) (input : string) :
  (exists e, normalize_candidates py input = Raise e
             /\ run py net input = (Raise e, []))
  \/ (exists candidates v h,
        normalize_candidates py input = Return candidates
        /\ run py net input = (Return v, h)
        /\ Loop py net candidates init v h).
Proof.
  destruct (normalize_candidates py input) as [cands|e] eqn:Hn.
  - right. destruct (run_returns py net input cands Hn) as (v & h & Hrun & Hl).
    now exists cands, v, h.
  - left. exists e. split; [reflexivity | now apply run_raises].
Qed.

(** X4: a run makes at most eight network calls, at most four of them
    probes of candidates. *)
Theorem run_calls_bounded (py : PyRuntime) (net : Network) (input : string) :
  (length (snd (run py net input)) <= 8)%nat
  /\ (length (filter is_probe (snd (run py net input))) <= 4)%nat.
Proof.
  destruct (run_cases py net input)
    as [(e & _ & ->)|(cands & v & h & Hn & -> & Hl)]; simpl.
  - lia.
  - apply Loop_length in Hl. apply normalize_candidates_length in Hn. lia.
Qed.

(** X5: the candidates are probed in the order of the list, each at most
    once: the probes of a run are a prefix of the candidate list, and the
    whole list when the verdict is negative. *)
Theorem probes_follow_candidates
  (py : PyRuntime) (net : Network) (input : string) (candidates : list string)
  (v : Verdict) (h : list Call) :
  normalize_candidates py input = Return candidates ->
  run py net input = (Return v, h) ->
  exists rest,
    candidates = map target (filter is_probe h) ++ rest
    /\ (isShopify v = false -> rest = []).
Proof.
  intros Hn Hrun.
  destruct (run_inv py net input v h Hrun) as (cands & Hn' & Hl).
  rewrite Hn in Hn'. injection Hn' as <-.
  now apply (Loop_probes py net candidates init v h).
Qed.

Lemma probes_follow_candidates_witness :
  exists rest,
    [ "https://shop.example/"; "http://shop.example/";
      "https://www.shop.example/"; "http://www.shop.example/" ]%string
    = ["https://shop.example/"%string] ++ rest.
Proof.
  eassert (Hrun : run Ref.py_added_first Scenario.net_store "shop.example"
                  = (Return _, _)) by (vm_compute; reflexivity).
  destruct (probes_follow_candidates Ref.py_added_first Scenario.net_store
              "shop.example" _ _ _ ltac:(vm_compute; reflexivity) Hrun)
    as (rest & Heq & _).
  exists rest. exact Heq.
Defined.

(** X6: when there is a candidate, the first network call of the run is
    the probe of the first candidate. *)
Theorem first_call_probes_first_candidate
  (py : PyRuntime) (net : Network) (input c : string) (rest : list string) :
  normalize_candidates py input = Return (c :: rest) ->
  exists t, snd (run py net input) = mkCall Probe c (net [] c) :: t.
Proof.
  intros Hn. destruct (run_returns py net input _ Hn) as (v & h & -> & Hl).
  apply (Loop_first_call py net c rest init v h Hl).
Qed.

Lemma first_call_probes_first_candidate_witness :
  exists t,
    snd (run Ref.py_added_first Ref.net_down "example.com")
    = mkCall Probe "https://example.com/" (Raise "Connection refused") :: t.
Proof.
  apply (first_call_probes_first_candidate Ref.py_added_first Ref.net_down
           "example.com" "https://example.com/"
           [ "http://example.com/"; "https://www.example.com/";
             "http://www.example.com/" ]%string).
  vm_compute. reflexivity.
Defined.

(** X7: a run makes no network call exactly when the input gives no
    candidate: the normalizer returned the empty list or raised. *)
Theorem no_call_iff_no_candidate (py : PyRuntime) (net : Network) (input : string) :
  snd (run py net input) = []
  <-> (normalize_candidates py input = Return []
       \/ exists e, normalize_candidates py input = Raise e).
Proof.
  destruct (run_cases py net input)
    as [(e & Hn & ->)|(cands & v & h & Hn & -> & Hl)]; simpl; rewrite Hn.
  - split; [right; now exists e | reflexivity].
  - destruct cands as [|c rest].
    + inversion Hl; subst. split; [now left | reflexivity].
    + destruct (Loop_first_call py net c rest init v h Hl) as [t ->].
      split; [discriminate | intros [E|[e E]]; discriminate E].
Qed.

(** X8: every answered probe is followed at once by one request for
    [/cart.js], joined to the address the probe resolved to. *)
Theorem answered_probe_followed_by_cart_check
  (py : PyRuntime) (net : Network) (input : string)
  (v : Verdict) (h : list Call) (c : string) (r : Response) :
  run py net input = (Return v, h) ->
  In (mkCall Probe c (Return r)) h ->
  exists h1 h2 out,
    h = h1 ++ mkCall Probe c (Return r)
           :: mkCall CartCheck (urljoin py (url r) "/cart.js") out :: h2.
Proof.
  intros Hrun Hin. destruct (run_inv py net input v h Hrun) as (cands & _ & Hl).
  now apply (Loop_probed_cart py net cands init v h Hl).
Qed.

Lemma answered_probe_followed_by_cart_check_witness :
  exists h1 h2 out,
    snd (run Ref.py_added_first Scenario.net_store "shop.example")
    = h1 ++ mkCall Probe Scenario.shop (Return Scenario.store_page)
           :: mkCall CartCheck "https://shop.example/cart.js" out :: h2.
Proof.
  eassert (Hrun : run Ref.py_added_first Scenario.net_store "shop.example"
                  = (Return _, _)) by (vm_compute; reflexivity).
  destruct (answered_probe_followed_by_cart_check Ref.py_added_first
              Scenario.net_store "shop.example" _ _ Scenario.shop Scenario.store_page
              Hrun ltac:(left; reflexivity))
    as (h1 & h2 & out & Heq).
  exists h1, h2, out. rewrite Hrun. exact Heq.
Defined.

(** X9: a request for [/cart.js] is only made right after an answered
    probe, and to the address that probe resolved to; a failed probe is
    never followed by one. *)
Theorem cart_check_follows_answered_probe
  (py : PyRuntime) (net : Network) (input : string)
  (v : Verdict) (h h1 h2 : list Call) (u : string) (out : result Response) :
  run py net input = (Return v, h) ->
  h = h1 ++ mkCall CartCheck u out :: h2 ->
  exists h0 c r,
    h1 = h0 ++ [mkCall Probe c (Return r)]
    /\ u = urljoin py (url r) "/cart.js".
Proof.
  intros Hrun Heq. destruct (run_inv py net input v h Hrun) as (cands & _ & Hl).
  now apply (Loop_cart_preceded py net cands init v h Hl h1 h2 u out).
Qed.

Lemma cart_check_follows_answered_probe_witness :
  exists h0 c r,
    [mkCall Probe Scenario.shop (Return Scenario.plain_page)]
    = h0 ++ [mkCall Probe c (Return r)]
    /\ Scenario.shop_cart = Ref.urljoin (url r) "/cart.js".
Proof.
  eassert (Hrun : run Ref.py_added_first Scenario.net_headless "shop.example"
                  = (Return _, _)) by (vm_compute; reflexivity).
  apply (cart_check_follows_answered_probe Ref.py_added_first Scenario.net_headless
           "shop.example" _ _ _ [] Scenario.shop_cart
           (Return (Ref.cart_json Scenario.shop_cart)) Hrun).
  reflexivity.
Defined.

(** X10: a positive auxiliary check decides the run, with or without a
    header signal: when any request for [/cart.js] of the run was
    positive, the verdict is isShopify = true with confidence high. *)
Theorem positive_cart_check_decides
  (py : PyRuntime) (net : Network) (input : string)
  (v : Verdict) (h : list Call) (u : string) (out : result Response) :
  run py net input = (Return v, h) ->
  In (mkCall CartCheck u out) h ->
  fst (cart_result u out) = true ->
  isShopify v = true /\ confidence v = High.
Proof.
  intros Hrun Hin Hok. destruct (run_inv py net input v h Hrun) as (cands & _ & Hl).
  now apply (Loop_cart_positive py net cands init v h Hl u out).
Qed.

Lemma positive_cart_check_decides_witness :
  exists v h,
    run Ref.py_added_first Scenario.net_headless "shop.example" = (Return v, h)
    /\ isShopify v = true /\ confidence v = High.
Proof.
  do 2 eexists. split; [vm_compute; reflexivity|].
  eapply (positive_cart_check_decides Ref.py_added_first Scenario.net_headless
            "shop.example" _ _ Scenario.shop_cart
            (Return (Ref.cart_json Scenario.shop_cart))).
  - vm_compute. reflexivity.
  - right. left. reflexivity.
  - reflexivity.
Defined.

Lemma decision_medium (r : Response) (ok : bool) :
  decision r ok = Some Medium
  <-> shopify_headers_of r = [] /\ ok = false
      /\ ((shopify_cookies_of r <> [] /\ check_body_markers (text r) = [])
          \/ (shopify_cookies_of r = [] /\ check_body_markers (text r) <> [])).
Proof.
  unfold decision. rewrite or_else_empty.
  destruct (shopify_headers_of r), ok, (shopify_cookies_of r),
    (check_body_markers (text r)); simpl; split;
    try discriminate; try (intros (? & ? & [[? ?]|[? ?]]); congruence);
    intros _; repeat split; try discriminate;
    (left; split; [discriminate | reflexivity])
    || (right; split; [reflexivity | discriminate]).
Qed.

(** X11: a positive verdict comes from the last probe of the run and its
    auxiliary check: the resolved address is the address that probe
    resolved to, and the confidence is medium exactly when the response
    had no vendor header, the auxiliary check was negative and exactly one
    of the cookie and body-marker checks found something (it is high
    otherwise). *)
Theorem positive_verdict_explained
  (py : PyRuntime) (net : Network) (input : string) (v : Verdict) (h : list Call) :
  run py net input = (Return v, h) ->
  isShopify v = true ->
  exists h1 c r u out,
    h = h1 ++ [mkCall Probe c (Return r); mkCall CartCheck u out]
    /\ resolvedUrl v = Some (url r)
    /\ (confidence v = Medium
        <-> shopify_headers_of r = [] /\ fst (cart_result u out) = false
            /\ ((shopify_cookies_of r <> [] /\ check_body_markers (text r) = [])
                \/ (shopify_cookies_of r = [] /\ check_body_markers (text r) <> [])))
    /\ (confidence v <> Medium -> confidence v = High).
Proof.
  intros Hrun Hpos. destruct (run_inv py net input v h Hrun) as (cands & _ & Hl).
  destruct (Loop_positive py net cands init v h Hl Hpos)
    as (h1 & c & r & u & out & tier & pre & -> & Hd & ->).
  exists h1, c, r, u, out. cbn [resolvedUrl confidence].
  split; [reflexivity|]. split; [reflexivity|]. split; [split|].
  - intros ->. now apply decision_medium.
  - intros Hm. apply decision_medium in Hm. congruence.
  - apply decision_tier in Hd. tauto.
Qed.

Lemma positive_verdict_explained_witness :
  exists v h,
    run Ref.py_added_first Scenario.net_cached "shop.example" = (Return v, h)
    /\ resolvedUrl v = Some Scenario.shop.
Proof.
  do 2 eexists. split; [vm_compute; reflexivity|].
  eassert (Hrun : run Ref.py_added_first Scenario.net_cached "shop.example"
                  = (Return _, _)) by (vm_compute; reflexivity).
  destruct (positive_verdict_explained Ref.py_added_first Scenario.net_cached
              "shop.example" _ _ Hrun eq_refl)
    as (h1 & c & r & u & out & _ & _ & _).
  reflexivity.
Defined.

(** X12: when the run is decided by a response without a vendor header,
    the evidence ends with the message of the auxiliary check, be it
    positive or negative. *)
Theorem evidence_ends_with_cart_message
  (py : PyRuntime) (net : Network) (input : string)
  (v : Verdict) (h h1 : list Call) (c u : string) (r : Response)
  (out : result Response) :
  run py net input = (Return v, h) ->
  isShopify v = true ->
  h = h1 ++ [mkCall Probe c (Return r); mkCall CartCheck u out] ->
  shopify_headers_of r = [] ->
  exists pre, evidence v = pre ++ [snd (cart_result u out)].
Proof.
  intros Hrun Hpos Heq Hh. destruct (run_inv py net input v h Hrun) as (cands & _ & Hl).
  destruct (Loop_positive py net cands init v h Hl Hpos)
    as (h1' & c' & r' & u' & out' & tier & pre & Heq' & Hd & ->).
  rewrite Heq in Heq'.
  change (h1 ++ [mkCall Probe c (Return r); mkCall CartCheck u out])
    with (h1 ++ [mkCall Probe c (Return r)] ++ [mkCall CartCheck u out]) in Heq'.
  change (h1' ++ [mkCall Probe c' (Return r'); mkCall CartCheck u' out'])
    with (h1' ++ [mkCall Probe c' (Return r')] ++ [mkCall CartCheck u' out']) in Heq'.
  rewrite !app_assoc in Heq'.
  apply app_inj_tail in Heq'. destruct Heq' as [Heq' Hc].
  apply app_inj_tail in Heq'. destruct Heq' as [_ Hp].
  injection Hc as <- <-. injection Hp as <- <-.
  exists (pre ++ signal_notes r). cbn [evidence].
  unfold cart_notes. rewrite (nonempty_false _ Hh). cbn [andb].
  now rewrite app_assoc.
Qed.

Lemma evidence_ends_with_cart_message_witness :
  exists v h pre,
    run Ref.py_added_first Scenario.net_cached "shop.example" = (Return v, h)
    /\ evidence v
       = pre ++ ["/cart.js не підтвердив Shopify (status=404, type=text/html)"%string].
Proof.
  eassert (Hrun : run Ref.py_added_first Scenario.net_cached "shop.example"
                  = (Return _, _)) by (vm_compute; reflexivity).
  destruct (evidence_ends_with_cart_message Ref.py_added_first Scenario.net_cached
              "shop.example" _ _ [] Scenario.shop Scenario.shop_cart
              Scenario.cached_page (Return (Ref.not_found Scenario.shop_cart))
              Hrun eq_refl eq_refl eq_refl) as [pre Hev].
  do 2 eexists. exists pre. split; [exact Hrun | exact Hev].
Defined.

(** X13: after a negative verdict every candidate has been probed once,
    in the order of the list, and the evidence holds exactly one note for
    each probe, in the same order: when the probe raised, the failure note
    with the candidate and the text of its exception; when it was
    answered, the no-signal note with the address its response resolved
    to, and that response had no vendor header, no vendor cookie and no
    body marker. *)
Theorem negative_verdict_one_note_per_candidate
  (py : PyRuntime) (net : Network) (input : string) (candidates : list string)
  (v : Verdict) (h : list Call) :
  normalize_candidates py input = Return candidates ->
  run py net input = (Return v, h) ->
  isShopify v = false ->
  map target (filter is_probe h) = candidates
  /\ Forall2 (fun call note =>
                match outcome call with
                | Raise e => note = failure_note (target call) e
                | Return r =>
                    note = no_signal_note (url r)
                    /\ shopify_headers_of r = []
                    /\ shopify_cookies_of r = []
                    /\ check_body_markers (text r) = []
                end)
       (filter is_probe h) (evidence v).
Proof.
  intros Hn Hrun Hneg.
  destruct (run_inv py net input v h Hrun) as (cands & Hn' & Hl).
  rewrite Hn in Hn'. injection Hn' as <-.
  split.
  - destruct (Loop_probes py net candidates init v h Hl) as (rest & Hc & Hr).
    rewrite (Hr Hneg), app_nil_r in Hc. now symmetry.
  - destruct (Loop_negative_probes py net candidates init v h Hl Hneg)
      as (notes & -> & Hf).
    exact Hf.
Qed.

Lemma negative_verdict_one_note_per_candidate_witness :
  exists v h,
    run Ref.py_added_first Ref.net_down "example.com" = (Return v, h)
    /\ length (evidence v) = 4%nat.
Proof.
  eassert (Hrun : run Ref.py_added_first Ref.net_down "example.com"
                  = (Return _, _)) by (vm_compute; reflexivity).
  destruct (negative_verdict_one_note_per_candidate Ref.py_added_first Ref.net_down
              "example.com" _ _ _ ltac:(vm_compute; reflexivity) Hrun eq_refl)
    as [_ Hf].
  apply Forall2_length in Hf.
  do 2 eexists. split; [exact Hrun | now rewrite <- Hf].
Defined.

(** X14: the failure note of every probe that raised is in the evidence
    of the run, whatever the verdict. *)
Theorem failed_probe_note_kept
  (py : PyRuntime) (net : Network) (input : string)
  (v : Verdict) (h : list Call) (c e : string) :
  run py net input = (Return v, h) ->
  In (mkCall Probe c (Raise e)) h ->
  In (failure_note c e) (evidence v).
Proof.
  intros Hrun Hin. destruct (run_inv py net input v h Hrun) as (cands & _ & Hl).
  now apply (Loop_failure_noted py net cands init v h Hl).
Qed.

Lemma failed_probe_note_kept_witness :
  exists v h,
    run Ref.py_added_last Scenario.net_store "shop.example" = (Return v, h)
    /\ isShopify v = true
    /\ In (failure_note "https://www.shop.example/" "Connection refused") (evidence v).
Proof.
  eassert (Hrun : run Ref.py_added_last Scenario.net_store "shop.example"
                  = (Return _, _)) by (vm_compute; reflexivity).
  do 2 eexists. split; [exact Hrun|]. split; [reflexivity|].
  apply (failed_probe_note_kept Ref.py_added_last Scenario.net_store "shop.example"
           _ _ "https://www.shop.example/" "Connection refused" Hrun).
  left. reflexivity.
Defined.

(** ** The auxiliary check *)

Lemma dict_has_iff (key : string) (items : list (string * Json)) :
  dict_has key (JDict items) = true <-> In key (map fst items).
Proof.
  split; [|apply dict_has_In].
  simpl. rewrite existsb_exists. intros (kv & Hin & Heq).
  apply String.eqb_eq in Heq. subst. now apply in_map.
Qed.

(** X15: called as [is_shopify_site] calls it, right after an answered
    probe and on the address that probe resolved to, [try_cart_json]
    never raises, whatever the network does with its request: it makes
    one request, for [/cart.js] joined to that address, returns a flag and
    a message, and leaves [reasons] as it was. *)
Theorem try_cart_json_never_raises
  (py : PyRuntime) (net : Network) (s : State) (h0 : list Call) (c : string)
  (r : Response) :
  history s = h0 ++ [mkCall Probe c (Return r)] ->
  exists ok msg,
    try_cart_json py net (url r) s
    = (Return (ok, msg),
       mkState (h0 ++ [ mkCall Probe c (Return r);
                        mkCall CartCheck (urljoin py (url r) "/cart.js")
                          (net (history s) (urljoin py (url r) "/cart.js")) ])
               (reasons s)).
Proof.
  intros Hh. rewrite try_cart_json_run. cbv zeta.
  destruct (cart_result _ _) as [ok msg]. exists ok, msg.
  rewrite Hh at 1. now rewrite <- app_assoc.
Qed.

Lemma try_cart_json_never_raises_witness :
  exists ok msg s',
    try_cart_json Ref.py_added_first Ref.net_down Scenario.shop
      (mkState [mkCall Probe Scenario.shop (Return Scenario.plain_page)] [])
    = (Return (ok, msg), s').
Proof.
  destruct (try_cart_json_never_raises Ref.py_added_first Ref.net_down
              (mkState [mkCall Probe Scenario.shop (Return Scenario.plain_page)] [])
              [] Scenario.shop Scenario.plain_page eq_refl) as (ok & msg & H).
  exists ok, msg. eexists. exact H.
Defined.

(** X16: [try_cart_json] is positive exactly when the request is answered
    with status 200, a content type that starts, without regard to case,
    with [application/json], and a body that decodes to an object having
    one of the keys [items], [token], [attributes]; its message then names
    the address requested. *)
Theorem try_cart_json_positive_iff
  (py : PyRuntime) (net : Network) (final_url : string) (s s' : State)
  (ok : bool) (msg : string) :
  try_cart_json py net final_url s = (Return (ok, msg), s') ->
  (ok = true <->
   exists r items,
     net (history s) (urljoin py final_url "/cart.js") = Return r
     /\ status_code r = 200%Z
     /\ Str.startswith (Str.lower (headers_get (headers r) "Content-Type" ""))
          "application/json" = true
     /\ json r = Return (JDict items)
     /\ (In "items"%string (map fst items) \/ In "token"%string (map fst items)
         \/ In "attributes"%string (map fst items)))
  /\ (ok = true -> msg = cart_ok_message (urljoin py final_url "/cart.js")).
Proof.
  rewrite try_cart_json_run. cbv zeta. intros H. injection H as H _.
  unfold cart_result in H.
  destruct (net (history s) _) as [r|e].
  - destruct (status_code r =? 200)%Z eqn:Hst; cbn [andb] in H.
    + apply Z.eqb_eq in Hst.
      destruct (Str.startswith _ "application/json") eqn:Hct.
      * destruct (json r) as [data|e] eqn:Hjs.
        -- destruct (is_dict data
                     && (dict_has "items" data || dict_has "token" data
                         || dict_has "attributes" data)) eqn:Hk;
             injection H as <- <-.
           ++ split; [|reflexivity]. split; [intros _ | reflexivity].
              destruct data as [| | | | |items]; try discriminate Hk.
              cbn [is_dict andb] in Hk.
              exists r, items. repeat split; try assumption.
              rewrite <- !dict_has_iff. rewrite !orb_true_iff in Hk. tauto.
           ++ split; [|discriminate]. split; [discriminate|].
              intros (r' & items' & Hr & _ & _ & Hj & Hin).
              injection Hr as <-. rewrite Hjs in Hj. injection Hj as ->.
              cbn [is_dict andb] in Hk.
              rewrite <- !dict_has_iff in Hin.
              destruct Hin as [E|[E|E]]; rewrite E in Hk;
                rewrite ?orb_true_r in Hk; discriminate Hk.
        -- injection H as <- <-. split; [|discriminate]. split; [discriminate|].
           intros (r' & items' & Hr & _ & _ & Hj & _). congruence.
      * injection H as <- <-. split; [|discriminate]. split; [discriminate|].
        intros (r' & items' & Hr & _ & Hc & _). congruence.
    + injection H as <- <-. split; [|discriminate]. split; [discriminate|].
      intros (r' & items' & Hr & Hs & _). apply Z.eqb_neq in Hst. congruence.
  - injection H as <- <-. split; [|discriminate]. split; [discriminate|].
    intros (r' & items' & Hr & _). discriminate Hr.
Qed.

Lemma try_cart_json_positive_iff_witness :
  exists msg s',
    try_cart_json Ref.py_added_first Scenario.net_headless Scenario.shop init
    = (Return (true, msg), s')
    /\ msg = cart_ok_message "https://shop.example/cart.js".
Proof.
  do 2 eexists. split; [vm_compute; reflexivity|].
  eapply (try_cart_json_positive_iff Ref.py_added_first Scenario.net_headless
            Scenario.shop init _ true).
  - vm_compute. reflexivity.
  - reflexivity.
Defined.

(** X17: a request that raises, and a reply with status 200 and a JSON
    content type whose body cannot be decoded, both give a negative result
    whose message carries the text of the exception. *)
Theorem try_cart_json_reports_errors
  (py : PyRuntime) (net : Network) (final_url : string) (s : State) (e : string) :
  (net (history s) (urljoin py final_url "/cart.js") = Raise e
   \/ exists r,
       net (history s) (urljoin py final_url "/cart.js") = Return r
       /\ status_code r = 200%Z
       /\ Str.startswith (Str.lower (headers_get (headers r) "Content-Type" ""))
            "application/json" = true
       /\ json r = Raise e) ->
  fst (try_cart_json py net final_url s) = Return (false, cart_error_message e).
Proof.
  rewrite try_cart_json_run. cbv zeta. cbn [fst]. unfold cart_result.
  intros [->|(r & -> & Hst & Hct & Hjs)]; [reflexivity|].
  now rewrite Hst, Hct, Hjs.
Qed.

Lemma try_cart_json_reports_errors_witness :
  fst (try_cart_json Ref.py_added_first Ref.net_down Scenario.shop init)
  = Return (false, cart_error_message "Connection refused").
Proof.
  apply (try_cart_json_reports_errors Ref.py_added_first Ref.net_down Scenario.shop
           init "Connection refused").
  left. reflexivity.
Defined.

(** ** The body markers *)

Local Open Scope string_scope.

Lemma lower_ascii_idem (c : ascii) :
  Str.lower_ascii (Str.lower_ascii c) = Str.lower_ascii c.
Proof. destruct c as [[] [] [] [] [] [] [] []]; reflexivity. Qed.

Lemma is_word_lower (c : ascii) : Re.is_word (Str.lower_ascii c) = Re.is_word c.
Proof. destruct c as [[] [] [] [] [] [] [] []]; reflexivity. Qed.

Lemma lower_append (a b : string) : Str.lower (a ++ b) = Str.lower a ++ Str.lower b.
Proof. induction a as [|c a IH]; simpl; [reflexivity | now rewrite IH]. Qed.

Lemma word_after_lower (s : string) : Re.word_after (Str.lower s) = Re.word_after s.
Proof. destruct s; simpl; [reflexivity | apply is_word_lower]. Qed.

Lemma match_here_lower (pat : list Re.atom) :
  forall prev s,
    Re.match_here pat (option_map Str.lower_ascii prev) (Str.lower s)
    = Re.match_here pat prev s.
Proof.
  induction pat as [|[c|] pat IH]; intros prev s; simpl.
  - reflexivity.
  - destruct s as [|t s]; simpl; [reflexivity|].
    rewrite lower_ascii_idem. f_equal. apply (IH (Some t)).
  - rewrite IH, word_after_lower. f_equal. f_equal.
    destruct prev; simpl; [apply is_word_lower | reflexivity].
Qed.

Lemma search_from_eq (pat : list Re.atom) (prev : option ascii) (s : string) :
  Re.search_from pat prev s
  = Re.match_here pat prev s
    || match s with
       | EmptyString => false
       | String t s' => Re.search_from pat (Some t) s'
       end.
Proof. destruct s; reflexivity. Qed.

Lemma search_from_lower (pat : list Re.atom) :
  forall s prev,
    Re.search_from pat (option_map Str.lower_ascii prev) (Str.lower s)
    = Re.search_from pat prev s.
Proof.
  induction s as [|t s IH]; intros prev;
    rewrite (search_from_eq pat prev), search_from_eq, match_here_lower.
  - reflexivity.
  - f_equal. apply (IH (Some t)).
Qed.

Lemma check_body_markers_lower (text : string) :
  check_body_markers (Str.lower text) = check_body_markers text.
Proof.
  unfold check_body_markers. apply filter_ext. intros pat.
  unfold Re.search. apply (search_from_lower (Re.compile pat) text None).
Qed.

(** X18: the body is matched without regard to the case of its letters:
    two bodies that differ only in case give the same list of markers. *)
Theorem check_body_markers_ignores_case (text text' : string) :
  Str.lower text = Str.lower text' ->
  check_body_markers text = check_body_markers text'.
Proof.
  intros H. rewrite <- (check_body_markers_lower text), H.
  apply check_body_markers_lower.
Qed.

Lemma check_body_markers_ignores_case_witness :
  check_body_markers "<a href=//CDN.Shopify.COM/x>"
  = check_body_markers "<a href=//cdn.shopify.com/x>".
Proof.
  apply (check_body_markers_ignores_case "<a href=//CDN.Shopify.COM/x>"
           "<a href=//cdn.shopify.com/x>").
  vm_compute. reflexivity.
Defined.

Lemma match_here_text (pat : list Re.atom) :
  forall prev s,
    Re.match_here pat prev s = true ->
    exists s1 s2, s = s1 ++ s2 /\ Str.lower s1 = Str.lower (pattern_text pat).
Proof.
  induction pat as [|[c|] pat IH]; intros prev s H; simpl in H.
  - now exists "", s.
  - destruct s as [|t s]; [discriminate|].
    apply andb_true_iff in H. destruct H as [Hc H].
    apply Ascii.eqb_eq in Hc.
    destruct (IH _ _ H) as (s1 & s2 & -> & Hl).
    exists (String t s1), s2. split; [reflexivity|]. simpl. now rewrite Hl, Hc.
  - apply andb_true_iff in H. destruct H as [_ H]. now apply (IH prev).
Qed.

Lemma search_from_text (pat : list Re.atom) :
  forall s prev,
    Re.search_from pat prev s = true ->
    exists a s1 b, s = a ++ s1 ++ b /\ Str.lower s1 = Str.lower (pattern_text pat).
Proof.
  induction s as [|t s IH]; intros prev H; simpl in H;
    apply orb_true_iff in H; destruct H as [H|H].
  - destruct (match_here_text _ _ _ H) as (s1 & s2 & E & Hl). now exists "", s1, s2.
  - discriminate.
  - destruct (match_here_text _ _ _ H) as (s1 & s2 & E & Hl). now exists "", s1, s2.
  - destruct (IH _ H) as (a & s1 & b & -> & Hl).
    now exists (String t a), s1, b.
Qed.

Lemma markers_name_shopify (pat : string) :
  In pat BODY_MARKERS ->
  exists x y, Str.lower (pattern_text (Re.compile pat)) = x ++ "shopify" ++ y.
Proof.
  intros [<-|[<-|[<-|[<-|[<-|[]]]]]].
  - now exists "cdn.", ".com".
  - now exists "my", ".com".
  - now exists "window.", "".
  - now exists "", ".theme".
  - now exists "", "-digital-wallet".
Qed.

(** X19: in a body of ASCII characters a marker is only found when the
    body contains the word [shopify], in whatever case: an ASCII body
    without it gives no marker. *)
Theorem markers_require_shopify (text : string) :
  Str.is_ascii text = true ->
  check_body_markers text <> [] ->
  exists a b, Str.lower text = a ++ "shopify" ++ b.
Proof.
  intros _ H. destruct (check_body_markers text) as [|pat hits] eqn:E; [congruence|].
  assert (Hin : In pat (check_body_markers text)) by (rewrite E; now left).
  unfold check_body_markers in Hin. apply filter_In in Hin. destruct Hin as [Hpat Hs].
  destruct (search_from_text _ _ _ Hs) as (a & s1 & b & -> & Hl).
  destruct (markers_name_shopify pat Hpat) as (x & y & Hxy).
  exists (Str.lower a ++ x), (y ++ Str.lower b).
  rewrite !lower_append, Hl, Hxy, !append_assoc. reflexivity.
Qed.

Lemma markers_require_shopify_witness :
  exists a b, Str.lower "<b>Powered by Shopify.theme</b>" = a ++ "shopify" ++ b.
Proof.
  apply (markers_require_shopify "<b>Powered by Shopify.theme</b>").
  - reflexivity.
  - vm_compute. discriminate.
Defined.

Lemma match_here_plain (pat : list Re.atom) :
  plain pat = true ->
  forall m prev b,
    Str.lower m = Str.lower (pattern_text pat) ->
    Re.match_here pat prev (m ++ b) = true.
Proof.
  induction pat as [|[c|] pat IH]; intros Hp m prev b Hm; simpl in Hp.
  - reflexivity.
  - destruct m as [|t m]; [discriminate|]. simpl in Hm. injection Hm as Ht Hm.
    simpl. rewrite Ht, Ascii.eqb_refl. now apply IH.
  - discriminate.
Qed.

Lemma search_from_found (pat : list Re.atom) (s : string) :
  (forall prev, Re.match_here pat prev s = true) ->
  forall a prev, Re.search_from pat prev (a ++ s) = true.
Proof.
  intros H. induction a as [|t a IH]; intros prev.
  - simpl. destruct s; simpl; now rewrite H.
  - simpl. rewrite (IH (Some t)). apply orb_true_r.
Qed.

(** X20: a body that contains [cdn.shopify.com], or
    [shopify-digital-wallet], anywhere and in whatever case, gives the
    marker of that name. *)
Theorem plain_markers_found_anywhere (pat a m b : string) :
  (pat = "cdn\.shopify\.com" /\ Str.lower m = "cdn.shopify.com")
  \/ (pat = "shopify-digital-wallet" /\ Str.lower m = "shopify-digital-wallet") ->
  In pat (check_body_markers (a ++ m ++ b)).
Proof.
  intros H. unfold check_body_markers. apply filter_In.
  destruct H as [[-> Hm]|[-> Hm]]; (split; [simpl; tauto|]);
    unfold Re.search; apply search_from_found; intros prev;
    apply match_here_plain; (reflexivity || exact Hm).
Qed.

Lemma plain_markers_found_anywhere_witness :
  In "cdn\.shopify\.com"
    (check_body_markers ("<img src=//" ++ "CDN.Shopify.com" ++ "/logo.png>")).
Proof.
  apply (plain_markers_found_anywhere "cdn\.shopify\.com" "<img src=//"
           "CDN.Shopify.com" "/logo.png>").
  left. split; reflexivity.
Defined.

Lemma search_from_after (pat : list Re.atom) (s : string) :
  forall a prev,
    Re.match_here pat (last_or prev a) s = true ->
    Re.search_from pat prev (a ++ s) = true.
Proof.
  induction a as [|t a IH]; intros prev H.
  - simpl in *. rewrite search_from_eq, H. reflexivity.
  - simpl. rewrite (IH (Some t) H). apply orb_true_r.
Qed.

Lemma match_here_plain_then (pat rest : list Re.atom) :
  plain pat = true ->
  forall m prev b,
    Str.lower m = Str.lower (pattern_text pat) ->
    Re.match_here (pat ++ rest)%list prev (m ++ b)
    = Re.match_here rest (last_or prev m) b.
Proof.
  induction pat as [|[c|] pat IH]; intros Hp m prev b Hm; simpl in Hp.
  - destruct m; [reflexivity | discriminate].
  - destruct m as [|t m]; [discriminate|]. simpl in Hm. injection Hm as Ht Hm.
    simpl. rewrite Ht, Ascii.eqb_refl. now apply IH.
  - discriminate.
Qed.

Lemma word_before_last_lower (m : string) :
  forall prev prev',
    Re.word_before prev = Re.word_before prev' ->
    Re.word_before (last_or prev m) = Re.word_before (last_or prev' (Str.lower m)).
Proof.
  induction m as [|t m IH]; intros prev prev' H; simpl.
  - assumption.
  - apply IH. simpl. symmetry. apply is_word_lower.
Qed.

Lemma word_after_append (m b : string) :
  m <> "" -> Re.word_after (m ++ b) = Re.word_after (Str.lower m).
Proof.
  destruct m as [|t m]; [congruence|]. intros _. simpl. symmetry. apply is_word_lower.
Qed.

Lemma word_before_last (m : string) (prev : option ascii) :
  m <> "" ->
  Re.word_before (last_or prev m) = Re.word_before (last_or None (Str.lower m)).
Proof.
  destruct m as [|t m]; [congruence|]. intros _. simpl.
  apply word_before_last_lower. simpl. symmetry. apply is_word_lower.
Qed.

(** X21: in a body of ASCII characters the markers with a word boundary
    are found where the boundary holds: [myshopify.com] between two places
    that are not word characters (or the ends of the body), and
    [window.Shopify] and [Shopify.theme] when no word character follows;
    the case of the letters does not matter. *)
Theorem bounded_markers_found (pat a m b : string) :
  Str.is_ascii (a ++ m ++ b) = true ->
  (pat = "\bmyshopify\.com\b" /\ Str.lower m = "myshopify.com"
   /\ Re.word_before (last_or None a) = false /\ Re.word_after b = false)
  \/ (pat = "window\.Shopify\b" /\ Str.lower m = "window.shopify"
      /\ Re.word_after b = false)
  \/ (pat = "Shopify\.theme\b" /\ Str.lower m = "shopify.theme"
      /\ Re.word_after b = false) ->
  In pat (check_body_markers (a ++ m ++ b)).
Proof.
  intros _ H. unfold check_body_markers. apply filter_In.
  destruct H as [(-> & Hm & Ha & Hb)|[(-> & Hm & Hb)|(-> & Hm & Hb)]];
    (split; [simpl; tauto|]); unfold Re.search; apply search_from_after;
    assert (Hne : m <> "") by (intros ->; discriminate Hm).
  - change (Re.compile "\bmyshopify\.com\b")
      with (Re.WordB :: (Re.compile "myshopify\.com" ++ [Re.WordB])%list).
    cbn [Re.match_here].
    rewrite (match_here_plain_then (Re.compile "myshopify\.com") [Re.WordB]
               eq_refl m _ b Hm).
    cbn [Re.match_here].
    rewrite Hb, Ha, (word_after_append m b Hne), (word_before_last m _ Hne), Hm.
    reflexivity.
  - change (Re.compile "window\.Shopify\b")
      with (Re.compile "window\.Shopify" ++ [Re.WordB])%list.
    rewrite (match_here_plain_then (Re.compile "window\.Shopify") [Re.WordB]
               eq_refl m _ b Hm).
    cbn [Re.match_here]. rewrite Hb, (word_before_last m _ Hne), Hm. reflexivity.
  - change (Re.compile "Shopify\.theme\b")
      with (Re.compile "Shopify\.theme" ++ [Re.WordB])%list.
    rewrite (match_here_plain_then (Re.compile "Shopify\.theme") [Re.WordB]
               eq_refl m _ b Hm).
    cbn [Re.match_here]. rewrite Hb, (word_before_last m _ Hne), Hm. reflexivity.
Qed.

Lemma bounded_markers_found_witness :
  In "\bmyshopify\.com\b"
    (check_body_markers ("<a href=https://store." ++ "MyShopify.com" ++ "/cart>")).
Proof.
  apply (bounded_markers_found "\bmyshopify\.com\b" "<a href=https://store."
           "MyShopify.com" "/cart>").
  - reflexivity.
  - left. repeat split; reflexivity.
Defined.

(** ** The route [/] *)




Lemma run_strip (py : PyRuntime) (net : Network) (input : string) :
  run py net (Str.strip input) = run py net input.
Proof.
  assert (Hn : normalize_candidates py (Str.strip input) = normalize_candidates py input)
    by (unfold normalize_candidates; now rewrite strip_idem).
  unfold run, is_shopify_site, bind, lift. now rewrite Hn.
Qed.

(** X22: on a POST the route runs the detection on the field [site_url]
    and renders its verdict: the evidence as details, the label of the
    confidence, the resolved address, the stripped input, and the success
    message with that label when the verdict is positive, the failure
    message otherwise; the network calls are those of the detection. *)
Theorem index_renders_verdict
  (py : PyRuntime) (net : Network) (fields : list (string * string))
  (v : Verdict) (h : list Call) :
  run py net (form_get fields "site_url" "") = (Return v, h) ->
  index py net (mkRequest "POST" fields)
  = (Return (mkContext
               (Some (if isShopify v
                      then shopify_message (confidence_label (confidence v))
                      else no_shopify_message))
               (evidence v)
               (Some (confidence_label (confidence v)))
               (resolvedUrl v)
               (Str.strip (form_get fields "site_url" ""))), h).
Proof.
  intros H. unfold index. cbn [method form]. rewrite String.eqb_refl.
  cbv zeta. now rewrite run_strip, H.
Qed.

Lemma index_renders_verdict_witness :
  exists h,
    index Ref.py_added_first Scenario.net_cached
      (mkRequest "POST" [("site_url", " shop.example ")])
    = (Return (mkContext
                 (Some (shopify_message "висока"))
                 [ "Знайдено Shopify-кукі: _shopify_y";
                   "У розмітці є маркери: cdn\.shopify\.com";
                   "/cart.js не підтвердив Shopify (status=404, type=text/html)" ]
                 (Some "висока") (Some "https://shop.example/") "shop.example"), h).
Proof.
  eexists.
  apply (index_renders_verdict Ref.py_added_first Scenario.net_cached
           [("site_url", " shop.example ")]
           (mkVerdict true High (Some "https://shop.example/")
              [ "Знайдено Shopify-кукі: _shopify_y";
                "У розмітці є маркери: cdn\.shopify\.com";
                "/cart.js не підтвердив Shopify (status=404, type=text/html)" ])).
  vm_compute. reflexivity.
Defined.

(** X23: the route makes no network call unless it is a POST whose field
    [site_url] is present and not blank (blank: empty or made only of
    white-space characters, ASCII or not); a request that is not a POST
    renders nothing, and a POST with a missing or blank field renders the
    failure message with low confidence, no address and no details. *)
Theorem index_idle_without_input
  (py : PyRuntime) (net : Network) (request : Request) (ws : list string) :
  (method request <> "POST"
   \/ (Forall (fun ch => In ch Str.WHITESPACE) ws
       /\ form_get (form request) "site_url" "" = String.concat "" ws)) ->
  snd (index py net request) = []
  /\ (method request <> "POST" ->
      fst (index py net request) = Return (mkContext None [] None None ""))
  /\ (method request = "POST" ->
      fst (index py net request)
      = Return (mkContext (Some no_shopify_message) [] (Some "низька") None "")).
Proof.
  intros H. unfold index.
  destruct (String.eqb_spec (method request) "POST") as [E|E].
  - destruct H as [H|[H Hf]]; [contradiction|].
    rewrite Hf, (strip_whitespace ws H). cbv zeta.
    change (run py net "") with (Return (mkVerdict false Low None []), @nil Call).
    cbn [fst snd].
    split; [reflexivity|]. split; [intros; congruence | intros; reflexivity].
  - cbn [fst snd].
    split; [reflexivity|]. split; [intros; reflexivity | intros; congruence].
Qed.

(** The field [site_url] is missing. *)
Lemma index_idle_without_input_witness :
  index Ref.py_added_first Scenario.net_store (mkRequest "POST" [("other", "x")])
  = (Return (mkContext (Some no_shopify_message) [] (Some "низька") None ""), []).
Proof.
  destruct (index_idle_without_input Ref.py_added_first Scenario.net_store
              (mkRequest "POST" [("other", "x")]) [])
    as (Hcalls & _ & Hpost).
  - right. split; [constructor | reflexivity].
  - specialize (Hpost eq_refl).
    destruct (index Ref.py_added_first Scenario.net_store
                (mkRequest "POST" [("other", "x")])) as [res calls].
    simpl in *. now subst.
Defined.

(** X24: what the route renders is consistent: the success message
    always comes with an address and with the label of high or of medium
    confidence, never of low; the failure message comes with no address
    and the label of low confidence. *)
Theorem index_message_consistent
  (py : PyRuntime) (net : Network) (fields : list (string * string))
  (ctx : IndexContext) (h : list Call) :
  index py net (mkRequest "POST" fields) = (Return ctx, h) ->
  (exists label,
      (label = "висока" \/ label = "середня")
      /\ ctx_result ctx = Some (shopify_message label)
      /\ ctx_confidence ctx = Some label
      /\ ctx_final_url ctx <> None)
  \/ (ctx_result ctx = Some no_shopify_message
      /\ ctx_confidence ctx = Some "низька"
      /\ ctx_final_url ctx = None).
Proof.
  unfold index. cbn [method form]. rewrite String.eqb_refl. cbv zeta.
  destruct (run py net _) as [[v|e] h'] eqn:Hrun; [|discriminate].
  intros [= <- <-].
  destruct (run_inv py net _ v h' Hrun) as (cands & _ & Hl).
  destruct (Loop_consistent py net cands init v h' Hl)
    as [(Hs & Hu & Hc)|(Hs & Hu & Hc)]; cbn; rewrite Hs.
  - left. exists (confidence_label (confidence v)).
    repeat split; [|assumption]. destruct Hc as [-> | ->]; auto.
  - right. now rewrite Hu, Hc.
Qed.

Lemma index_message_consistent_witness :
  exists ctx h,
    index Ref.py_added_first Ref.net_down (mkRequest "POST" [("site_url", "example.com")])
    = (Return ctx, h)
    /\ ctx_result ctx = Some no_shopify_message
    /\ ctx_final_url ctx = None.
Proof.
  eassert (Hidx : index Ref.py_added_first Ref.net_down
                    (mkRequest "POST" [("site_url", "example.com")])
                  = (Return _, _)) by (vm_compute; reflexivity).
  destruct (index_message_consistent Ref.py_added_first Ref.net_down
              [("site_url", "example.com")] _ _ Hidx)
    as [(label & _ & Hres & _)|(Hres & _ & Hurl)].
  - discriminate Hres.
  - do 2 eexists. split; [exact Hidx|]. split; assumption.
Defined.

(** X25: the route does not catch what [is_shopify_site] raises: an
    address on which [urlparse] raises makes the route raise, without a
    network call and without rendering a result. *)
Theorem index_raises_on_urlparse_error
  (py : PyRuntime) (net : Network) (fields : list (string * string)) (e : string) :
  normalize_candidates py (form_get fields "site_url" "") = Raise e ->
  index py net (mkRequest "POST" fields) = (Raise e, []).
Proof.
  intros H. unfold index. cbn [method form]. rewrite String.eqb_refl. cbv zeta.
  now rewrite run_strip, (run_raises py net _ e H).
Qed.

Lemma index_raises_on_urlparse_error_witness :
  index Ref.py_added_first Scenario.net_store
    (mkRequest "POST" [("site_url", "http://[shop.example")])
  = (Raise "Invalid IPv6 URL", []).
Proof.
  apply (index_raises_on_urlparse_error Ref.py_added_first Scenario.net_store
           [("site_url", "http://[shop.example")] "Invalid IPv6 URL").
  vm_compute. reflexivity.
Defined.
